(** * kivy_zbar: the camera session and the QR-code decode pipeline of main.py

    A shallow embedding of the classes of [main.py] that carry the logic
    (PreviewCallback / SurfaceHolderCallback, AndroidCamera,
    ZbarQrcodeDetector and AndroidWidgetHolder), followed by the properties
    of the specification that concern them and by further properties of the
    code.

    Python methods become functions in a state-and-exception monad over the
    object they mutate.  The Java objects reached through pyjnius (the
    android.hardware.Camera device and the zbar ImageScanner) are part of the
    state: what the Python code asks of them is kept both as their current
    state and as a log of the calls made, oldest first.  What the platform
    decides (the parameters of a freshly opened camera, whether the device
    accepts a parameter set, the bits per pixel of a format, the zbar
    conversion and scan) is a field of the [Platform] class.

    [@run_on_ui_thread] only moves a call to another thread; the model is
    sequential and runs the body in place. *)

From Stdlib Require Import ZArith List String Bool Lia.
From Stdlib Require Strings.Byte.
Import Strings.Byte.
Import ListNotations.
Local Open Scope Z_scope.

Set Implicit Arguments.

(** ** Python values *)

Definition bytes := list byte.

(** [s * n] on a Python string: [n] copies, none when [n <= 0]. *)
Definition str_mul (s : bytes) (n : Z) : bytes :=
  List.concat (repeat s (Z.to_nat n)).

(** *** Floats

    A finite binary64 value is [mant * 2^expo].  The values met here are
    products of Java ints scaled by 1/8, of magnitude below 2^93, so the
    exponent limits of the format are never reached and only the rounding of
    the significand to 53 bits (to nearest, ties to even) is modelled. *)
Module Float.

Record float := mk { mant : Z; expo : Z }.

(** [m / 2^k] rounded to the nearest integer, ties to the even one. *)
Definition rne (m k : Z) : Z :=
  let q := m / 2 ^ k in
  let r := m mod 2 ^ k in
  let half := 2 ^ (k - 1) in
  if r <? half then q
  else if half <? r then q + 1
  else if Z.even q then q else q + 1.

(** Number of significand bits beyond the 53 that binary64 keeps. *)
Definition excess (m : Z) : Z := Z.log2 (Z.abs m) + 1 - 53.

Definition round (m e : Z) : float :=
  let k := excess m in
  if k <=? 0 then mk m e else mk (rne m k) (e + k).

(** [float(n)], the conversion Python applies to the int operand of a
    mixed int/float operation. *)
Definition of_int (n : Z) : float := round n 0.

(** [x * y] *)
Definition mul (x y : float) : float :=
  round (mant x * mant y) (expo x + expo y).

(** [x / 8.]: dividing by a power of two only lowers the exponent. *)
Definition div8 (x : float) : float := mk (mant x) (expo x - 3).

(** [int(x)]: truncation towards zero. *)
Definition to_int (x : float) : Z :=
  if 0 <=? expo x then mant x * 2 ^ expo x
  else Z.quot (mant x) (2 ^ (- expo x)).

End Float.

(** ** Exceptions and the monad of method bodies *)

Inductive exn :=
| AttributeError       (* a method looked up on [None] *)
| JavaException (what : string).

Inductive result (A : Type) :=
| Ok (a : A)
| Raised (e : exn).
Arguments Ok {A} a.
Arguments Raised {A} e.

(** A method body over the object state [S]: it returns or raises, and in
    both cases leaves a state behind (an exception does not undo the
    assignments made before it). *)
Definition Py (S A : Type) : Type := S -> result A * S.

Definition ret {S A} (a : A) : Py S A := fun s => (Ok a, s).

Definition bind {S A B} (m : Py S A) (k : A -> Py S B) : Py S B :=
  fun s => match m s with
           | (Ok a, s') => k a s'
           | (Raised e, s') => (Raised e, s')
           end.

Definition raise {S A} (e : exn) : Py S A := fun s => (Raised e, s).
(** The outcome of a call into Java, which returns or throws and leaves the
    Python object as it is. *)
Definition java {S A} (r : result A) : Py S A := fun s => (r, s).
Definition get {S} : Py S S := fun s => (Ok s, s).
Definition gets {S A} (f : S -> A) : Py S A := fun s => (Ok (f s), s).
Definition modify {S} (f : S -> S) : Py S unit := fun s => (Ok tt, f s).

Declare Scope py_scope.
Delimit Scope py_scope with py.
Notation "x <- m ;; k" := (bind m (fun x => k))
  (at level 61, m at next level, right associativity) : py_scope.
Notation "m ;; k" := (bind m (fun _ => k))
  (at level 61, right associativity) : py_scope.

(** State a run leaves behind, and whether it returned. *)
Definition state_of {S A} (r : result A * S) : S := snd r.
Definition returned {S A} (r : result A * S) : bool :=
  match fst r with Ok _ => true | Raised _ => false end.

(** ** The Java objects behind pyjnius *)

(** android.hardware.Camera.Size *)
Module Size.
Record t := mk { width : Z; height : Z }.
End Size.

(** android.hardware.Camera.Parameters, restricted to what main.py reads or
    writes.  [settings] holds the pairs given to the generic [set]. *)
Module Parameters.
Record t := mk {
  focusMode : string;
  rotation : Z;
  settings : list (string * string);
  previewSize : Size.t;
  previewFormat : Z
}.

Definition setFocusMode (v : string) (p : t) : t :=
  mk v (rotation p) (settings p) (previewSize p) (previewFormat p).
Definition setRotation (v : Z) (p : t) : t :=
  mk (focusMode p) v (settings p) (previewSize p) (previewFormat p).
Definition set (key value : string) (p : t) : t :=
  mk (focusMode p) (rotation p) ((key, value) :: settings p)
     (previewSize p) (previewFormat p).
Definition setPreviewSize (width height : Z) (p : t) : t :=
  mk (focusMode p) (rotation p) (settings p) (Size.mk width height)
     (previewFormat p).
Definition getPreviewSize (p : t) : Size.t := previewSize p.
Definition getPreviewFormat (p : t) : Z := previewFormat p.
End Parameters.

(** android.view.SurfaceView: an opaque view. *)
Inductive SurfaceView := SurfaceView_new.

(** net.sourceforge.zbar.Image *)
Module Image.
Record t := mk {
  width : Z;
  height : Z;
  format : string;
  data : bytes
}.
(** [Image(width, height, format)] holds no data yet. *)
Definition new (width height : Z) (format : string) : t :=
  mk width height format [].
Definition setData (d : bytes) (i : t) : t :=
  mk (width i) (height i) (format i) d.
End Image.

(** net.sourceforge.zbar.Symbol: a decoded symbol as the decoder hands it
    out.  Besides the five getters main.py reads it carries more (here its
    orientation and the corner points). *)
Module Symbol.
Record t := mk {
  getType : Z;
  getData : string;
  getBounds : list Z;
  getQuality : Z;
  getCount : Z;
  getOrientation : Z;
  getLocationPoints : list (Z * Z)
}.
(** The symbology constants of zbar. *)
Definition NONE : Z := 0.
Definition QRCODE : Z := 64.
End Symbol.

(** net.sourceforge.zbar.Config: the configuration keys. *)
Module Config.
Inductive t := ENABLE | X_DENSITY | Y_DENSITY.
Definition eqb (a b : t) : bool :=
  match a, b with
  | ENABLE, ENABLE | X_DENSITY, X_DENSITY | Y_DENSITY, Y_DENSITY => true
  | _, _ => false
  end.
End Config.

(** net.sourceforge.zbar.ImageScanner: the [setConfig] calls it has received,
    oldest first, each as (symbology, key, value). *)
Module ImageScanner.
Definition t := list (Z * Config.t * Z).
Definition new : t := [].
Definition setConfig (symbology : Z) (key : Config.t) (value : Z) (s : t) : t :=
  s ++ [(symbology, key, value)].

(** What zbar makes of the calls: a call for symbology 0 applies to every
    symbology, a call for another one to that one alone; the last call that
    applies decides.  [dflt] is the value before any call. *)
Fixpoint config (key : Config.t) (symbology : Z) (dflt : Z) (s : t) : Z :=
  match s with
  | [] => dflt
  | (sym, k, v) :: rest =>
      config key symbology
        (if Config.eqb k key && ((sym =? 0) || (sym =? symbology))
         then v else dflt)
        rest
  end.
End ImageScanner.

(** android.hardware.Camera: the calls main.py makes that change the device.
    The queries ([getParameters] and the getters of the parameters) read the
    state and are not logged. *)
Module Camera.
Inductive call :=
| open (cameraId : Z)
| setParameters (p : Parameters.t)
| setDisplayOrientation (degrees : Z)
| setPreviewCallback_None
| release
| addCallbackBuffer (buf : bytes)
| setPreviewCallbackWithBuffer
| setPreviewDisplay
| startPreview.

(** The open device: its parameters, the queue of callback buffers waiting
    for a frame, and whether the preview runs. *)
Record t := mk {
  parameters : Parameters.t;
  buffers : list bytes;
  previewing : bool
}.

(** A Java camera object as its holder sees it: the open device, or a
    camera on which [release] has been called.  The widget drops its camera
    in the call that releases it, so the one place a released camera can
    turn up is the argument of a preview callback that runs after [stop]. *)
Inductive ref :=
| Open (c : t)
| Released.

(** [camera.getParameters()]: the parameters of the open device;
    android.hardware.Camera throws a RuntimeException when the camera has
    been released. *)
Definition getParameters (c : ref) : result Parameters.t :=
  match c with
  | Open c => Ok (parameters c)
  | Released => Raised (JavaException "Method called after release()")
  end.

Definition is_addCallbackBuffer (c : call) : bool :=
  match c with addCallbackBuffer _ => true | _ => false end.
Definition is_startPreview (c : call) : bool :=
  match c with startPreview => true | _ => false end.
End Camera.

Coercion Camera.Open : Camera.t >-> Camera.ref.

(** What the platform decides. *)
Class Platform := {
  (** [Camera.open(index)]: the parameters the device starts with, [None]
      when the device cannot be opened. *)
  Camera_open : Z -> option Parameters.t;
  (** Whether [Camera.setParameters] takes the parameters. *)
  Camera_accepts : Parameters.t -> bool;
  (** [ImageFormat.getBitsPerPixel] *)
  ImageFormat_getBitsPerPixel : Z -> Z;
  (** [Image.convert]: [None] when zbar has no conversion. *)
  Image_convert : Image.t -> string -> option Image.t;
  (** [ImageScanner.scanImage]: the value returned and the symbols the scan
      attaches to the image, in the order their iterator yields them. *)
  ImageScanner_scanImage : ImageScanner.t -> Image.t -> Z * list Symbol.t
}.

(** ** class PreviewCallback, class SurfaceHolderCallback

    Both hold the Python callable given at construction and pass the Java
    notification on to it. *)
Module PreviewCallback.
Section Methods.
Variables (S Cam : Type).
Variable callback : Cam -> bytes -> Py S unit.

Definition onPreviewFrame (data : bytes) (camera : Cam) : Py S unit :=
  callback camera data.
End Methods.
End PreviewCallback.

Module SurfaceHolderCallback.
Section Methods.
Variable S : Type.
Variable callback : Z -> Z -> Z -> Py S unit.

Definition surfaceChanged (surface : SurfaceView) (fmt width height : Z)
  : Py S unit :=
  callback fmt width height.
Definition surfaceCreated (surface : SurfaceView) : Py S unit := ret tt.
Definition surfaceDestroyed (surface : SurfaceView) : Py S unit := ret tt.
End Methods.
End SurfaceHolderCallback.

(** ** class AndroidCamera *)
Module AndroidCamera.

(** The attributes of the widget that the camera logic uses.  [_holder_view]
    is [self._holder.view]; the two callback attributes record whether the
    callback object has been created.  [calls] is the log of the calls made
    on android.hardware.Camera. *)
Record t := mk {
  index : Z;
  _android_camera : option Camera.t;
  _android_surface : option SurfaceView;
  _android_surface_cb : bool;
  _previewCallback : bool;
  _holder_view : option SurfaceView;
  calls : list Camera.call
}.

Definition __init__ (index : Z) : t :=
  mk index None None false false None [].

(** The session as the attributes show it: open while a camera is held,
    streaming once its preview runs; [queue] is the callback-buffer queue of
    the held camera. *)
Definition is_open (s : t) : bool :=
  match _android_camera s with Some _ => true | None => false end.
Definition streaming (s : t) : bool :=
  match _android_camera s with
  | Some cam => Camera.previewing cam
  | None => false
  end.
Definition queue (s : t) : list bytes :=
  match _android_camera s with
  | Some cam => Camera.buffers cam
  | None => []
  end.
(** How often the preview has been started, how many buffers submitted. *)
Definition started (s : t) : nat :=
  List.length (filter Camera.is_startPreview (calls s)).
Definition submitted (s : t) : nat :=
  List.length (filter Camera.is_addCallbackBuffer (calls s)).

(** *** Attribute assignment *)
Definition set_android_camera (v : option Camera.t) : Py t unit :=
  modify (fun s => mk (index s) v (_android_surface s) (_android_surface_cb s)
                      (_previewCallback s) (_holder_view s) (calls s)).
Definition set_android_surface (v : option SurfaceView) : Py t unit :=
  modify (fun s => mk (index s) (_android_camera s) v (_android_surface_cb s)
                      (_previewCallback s) (_holder_view s) (calls s)).
Definition set_android_surface_cb (v : bool) : Py t unit :=
  modify (fun s => mk (index s) (_android_camera s) (_android_surface s) v
                      (_previewCallback s) (_holder_view s) (calls s)).
Definition set_previewCallback (v : bool) : Py t unit :=
  modify (fun s => mk (index s) (_android_camera s) (_android_surface s)
                      (_android_surface_cb s) v (_holder_view s) (calls s)).
Definition set_holder_view (v : option SurfaceView) : Py t unit :=
  modify (fun s => mk (index s) (_android_camera s) (_android_surface s)
                      (_android_surface_cb s) (_previewCallback s) v (calls s)).
Definition log (c : Camera.call) : Py t unit :=
  modify (fun s => mk (index s) (_android_camera s) (_android_surface s)
                      (_android_surface_cb s) (_previewCallback s)
                      (_holder_view s) (calls s ++ [c])).

(** *** Calls on [self._android_camera]

    Looking a method up on [None] raises AttributeError before any call is
    made. *)
Definition the_camera : Py t Camera.t :=
  fun s => match _android_camera s with
           | Some cam => (Ok cam, s)
           | None => (Raised AttributeError, s)
           end.

Local Open Scope py_scope.

Definition getParameters : Py t Parameters.t :=
  cam <- the_camera ;; java (Camera.getParameters cam).

(** Applies the parameters, or raises when the device refuses them. *)
Definition setParameters `{Platform} (p : Parameters.t) : Py t unit :=
  cam <- the_camera ;;
  log (Camera.setParameters p) ;;
  if Camera_accepts p
  then set_android_camera
         (Some (Camera.mk p (Camera.buffers cam) (Camera.previewing cam)))
  else raise (JavaException "setParameters failed").

Definition setDisplayOrientation (degrees : Z) : Py t unit :=
  _ <- the_camera ;; log (Camera.setDisplayOrientation degrees).

(** [setPreviewCallback(None)] removes the callback and empties the queue
    of callback buffers. *)
Definition setPreviewCallback_None : Py t unit :=
  cam <- the_camera ;;
  log Camera.setPreviewCallback_None ;;
  set_android_camera
    (Some (Camera.mk (Camera.parameters cam) [] (Camera.previewing cam))).

Definition release : Py t unit :=
  _ <- the_camera ;; log Camera.release.

(** Appends the buffer to the queue of the device. *)
Definition addCallbackBuffer (buf : bytes) : Py t unit :=
  cam <- the_camera ;;
  log (Camera.addCallbackBuffer buf) ;;
  set_android_camera
    (Some (Camera.mk (Camera.parameters cam) (Camera.buffers cam ++ [buf])
                     (Camera.previewing cam))).

Definition setPreviewCallbackWithBuffer : Py t unit :=
  _ <- the_camera ;; log Camera.setPreviewCallbackWithBuffer.

(** [setPreviewDisplay(self._android_surface.getHolder())]: the holder is
    looked up on the surface view first. *)
Definition the_surface : Py t SurfaceView :=
  fun s => match _android_surface s with
           | Some surface => (Ok surface, s)
           | None => (Raised AttributeError, s)
           end.

Definition setPreviewDisplay (surface : SurfaceView) : Py t unit :=
  _ <- the_camera ;; log Camera.setPreviewDisplay.

Definition startPreview : Py t unit :=
  cam <- the_camera ;;
  log Camera.startPreview ;;
  set_android_camera
    (Some (Camera.mk (Camera.parameters cam) (Camera.buffers cam) true)).

(** *** Methods *)

Definition stop : Py t unit :=
  cam <- gets _android_camera ;;
  match cam with
  | None => ret tt
  | Some _ =>
      setPreviewCallback_None ;;
      release ;;
      set_android_camera None ;;
      set_holder_view None
  end.

Definition start `{Platform} : Py t unit :=
  cam <- gets _android_camera ;;
  match cam with
  | Some _ => ret tt
  | None =>
      index <- gets index ;;
      log (Camera.open index) ;;
      match Camera_open index with
      | None => raise (JavaException "Fail to connect to camera service")
      | Some p0 =>
          set_android_camera (Some (Camera.mk p0 [] false)) ;;
          params <- getParameters ;;
          let params := Parameters.setFocusMode "continuous-picture" params in
          let params := Parameters.setRotation 90 params in
          let params := Parameters.set "orientation" "portrait" params in
          setParameters params ;;
          setDisplayOrientation 90 ;;
          set_android_surface (Some SurfaceView_new) ;;
          set_android_surface_cb true ;;
          surface <- gets _android_surface ;;
          set_holder_view surface
      end
  end.

(** The buffer of [_on_surface_changed]:
    [bpp = getBitsPerPixel(fmt) / 8.] and
    ['\x00' * int(width * height * bpp)]. *)
Definition frame_buffer (bitsPerPixel width height : Z) : bytes :=
  let bpp := Float.div8 (Float.of_int bitsPerPixel) in
  str_mul [x00]
    (Float.to_int (Float.mul (Float.of_int (width * height)) bpp)).

Definition _on_surface_changed `{Platform} (fmt width height : Z)
  : Py t unit :=
  params <- getParameters ;;
  let params := Parameters.setPreviewSize height width params in
  setParameters params ;;
  let buf :=
    frame_buffer
      (ImageFormat_getBitsPerPixel (Parameters.getPreviewFormat params))
      width height in
  addCallbackBuffer buf ;;
  addCallbackBuffer buf ;;
  set_previewCallback true ;;
  setPreviewCallbackWithBuffer ;;
  surface <- the_surface ;;
  setPreviewDisplay surface ;;
  startPreview.

(** [SurfaceHolderCallback(self._on_surface_changed)] of [start]: what a
    surface-change notification runs. *)
Definition surface_changed `{Platform}
  : SurfaceView -> Z -> Z -> Z -> Py t unit :=
  SurfaceHolderCallback.surfaceChanged _on_surface_changed.

(** The parameters [_on_surface_changed] applies to a camera holding [p],
    the buffer it submits, and the calls it makes, in order. *)
Definition surface_parameters (p : Parameters.t) (width height : Z)
  : Parameters.t :=
  Parameters.setPreviewSize height width p.

Definition surface_buffer `{Platform} (p : Parameters.t) (width height : Z)
  : bytes :=
  frame_buffer
    (ImageFormat_getBitsPerPixel
       (Parameters.getPreviewFormat (surface_parameters p width height)))
    width height.

Definition surface_calls `{Platform} (p : Parameters.t) (width height : Z)
  : list Camera.call :=
  [Camera.setParameters (surface_parameters p width height);
   Camera.addCallbackBuffer (surface_buffer p width height);
   Camera.addCallbackBuffer (surface_buffer p width height);
   Camera.setPreviewCallbackWithBuffer;
   Camera.setPreviewDisplay;
   Camera.startPreview].

(** The widget once [data] has been submitted to the camera [cam] it holds. *)
Definition resubmitted (data : bytes) (cam : Camera.t) (c : t) : t :=
  mk (index c)
     (Some (Camera.mk (Camera.parameters cam) (Camera.buffers cam ++ [data])
                      (Camera.previewing cam)))
     (_android_surface c) (_android_surface_cb c) (_previewCallback c)
     (_holder_view c) (calls c ++ [Camera.addCallbackBuffer data]).

(** The default handler of the event. *)
Definition on_preview_frame {S} (camera : Camera.ref) (data : bytes)
  : Py S unit := ret tt.

(** [_on_preview_frame] runs inside the widget tree: [S] is the state the
    bound handlers work on, in which the camera widget sits at
    [view]/[update]. *)
Section Dispatch.
Variable S : Type.
Variable view : S -> t.
Variable update : t -> S -> S.
(** The handlers bound to [on_preview_frame]. *)
Variable bound : Camera.ref -> bytes -> Py S unit.

(** A method of the camera run on the enclosing state. *)
Definition zoom {A} (m : Py t A) : Py S A :=
  fun s => let (r, c) := m (view s) in (r, update c s).

(** [self.dispatch('on_preview_frame', camera, data)]: the bound
    handlers, then the default one. *)
Definition dispatch (camera : Camera.ref) (data : bytes) : Py S unit :=
  bound camera data ;;
  on_preview_frame camera data.

Definition _on_preview_frame (camera : Camera.ref) (data : bytes)
  : Py S unit :=
  dispatch camera data ;;
  zoom (addCallbackBuffer data).

(** The device hands out a frame.  This is the side of
    android.hardware.Camera under [setPreviewCallbackWithBuffer], not code
    of main.py: when the preview runs and a callback buffer waits in the
    queue, the buffer leaves the queue, is filled with the frame and goes to
    [PreviewCallback.onPreviewFrame]; without a buffer the frame is
    dropped. *)
Definition deliver (frame : bytes) : Py S unit :=
  cam <- zoom (gets _android_camera) ;;
  match cam with
  | Some (Camera.mk p (_ :: queue) true) =>
      let camera := Camera.mk p queue true in
      zoom (set_android_camera (Some camera)) ;;
      PreviewCallback.onPreviewFrame _on_preview_frame frame
        (Camera.Open camera)
  | _ => ret tt
  end.

(** Frames delivered one after the other.  Each delivery is a callback
    of its own: an exception ends that callback only. *)
Definition deliver_all (frames : list bytes) (s : S) : S :=
  fold_left (fun s frame => state_of (deliver frame s)) frames s.
End Dispatch.

End AndroidCamera.

(** ** class ZbarQrcodeDetector *)
Module ZbarQrcodeDetector.

(** [Qrcode = namedtuple('Qrcode', ['type', 'data', 'bounds', 'quality',
    'count'])] *)
Record Qrcode := mkQrcode {
  type : Z;
  data : string;
  bounds : list Z;
  quality : Z;
  count : Z
}.

Record t := mk {
  camera_size : list Z;
  symbols : list Qrcode;
  show_bounds : bool;
  _camera : AndroidCamera.t;
  _scanner : ImageScanner.t
}.

Definition set_symbols (v : list Qrcode) : Py t unit :=
  modify (fun s => mk (camera_size s) v (show_bounds s) (_camera s)
                      (_scanner s)).
Definition set_camera (c : AndroidCamera.t) (s : t) : t :=
  mk (camera_size s) (symbols s) (show_bounds s) c (_scanner s).

(** A method of [self._camera] run on the detector. *)
Definition on_camera {A} (m : Py AndroidCamera.t A) : Py t A :=
  AndroidCamera.zoom _camera set_camera m.

Definition __init__ : t :=
  let _camera := AndroidCamera.__init__ 0 in
  let _scanner := ImageScanner.new in
  let _scanner := ImageScanner.setConfig 0 Config.ENABLE 0 _scanner in
  let _scanner :=
    ImageScanner.setConfig Symbol.QRCODE Config.ENABLE 1 _scanner in
  let _scanner := ImageScanner.setConfig 0 Config.X_DENSITY 3 _scanner in
  let _scanner := ImageScanner.setConfig 0 Config.Y_DENSITY 3 _scanner in
  mk [720; 960] [] false _camera _scanner.

Local Open Scope py_scope.

Definition start `{Platform} : Py t unit :=
  on_camera AndroidCamera.start.

Definition stop : Py t unit :=
  set_symbols [] ;;
  on_camera AndroidCamera.stop.

(** The record built from one decoder symbol. *)
Definition qrcode_of (symbol : Symbol.t) : Qrcode :=
  {| type := Symbol.getType symbol;
     data := Symbol.getData symbol;
     quality := Symbol.getQuality symbol;
     count := Symbol.getCount symbol;
     bounds := Symbol.getBounds symbol |}.

(** The [while it.hasNext()] loop: [it] is what the iterator has left to
    yield, [symbols] the list appended to. *)
Fixpoint extract (it : list Symbol.t) (symbols : list Qrcode)
  : list Qrcode :=
  match it with
  | [] => symbols
  | symbol :: it =>
      let qrcode := qrcode_of symbol in
      extract it (symbols ++ [qrcode])
  end.

(** The first four lines of [_detect_qrcode_frame] on an open camera: the
    frame wrapped as an NV21 image of the preview size of the camera. *)
Definition nv21_image (camera : Camera.t) (data : bytes) : Image.t :=
  let parameters := Camera.parameters camera in
  let size := Parameters.getPreviewSize parameters in
  let barcode := Image.new (Size.width size) (Size.height size) "NV21" in
  Image.setData data barcode.

(** What the decoder makes of a frame: the value of [scanImage] and the
    symbols found, [None] when the frame cannot be converted. *)
Definition decoded `{Platform} (camera : Camera.t) (data : bytes) (s : t)
  : option (Z * list Symbol.t) :=
  option_map (ImageScanner_scanImage (_scanner s))
             (Image_convert (nv21_image camera data) "Y800").

(** [_detect_qrcode_frame(self, instance, camera, data)]; [instance], the
    camera widget, is not used.  [camera] is the Java camera the callback
    comes with: [getParameters] raises on it once it has been released.  A
    failed conversion leaves [None] in [barcode], and the scan of it raises
    in the Java binding. *)
Definition _detect_qrcode_frame `{Platform}
    (camera : Camera.ref) (data : bytes) : Py t unit :=
  parameters <- java (Camera.getParameters camera) ;;
  let size := Parameters.getPreviewSize parameters in
  let barcode := Image.new (Size.width size) (Size.height size) "NV21" in
  let barcode := Image.setData data barcode in
  match Image_convert barcode "Y800" with
  | None => raise (JavaException "NullPointerException")
  | Some barcode =>
      _scanner <- gets _scanner ;;
      let (result, found) := ImageScanner_scanImage _scanner barcode in
      if result =? 0 then ret tt
      else
        let symbols := extract found [] in
        set_symbols symbols
  end.

(** The camera callback and the deliveries as they run on the detector, for
    any handler bound to [on_preview_frame] of its camera. *)
Section Bound.
Variable bound : Camera.ref -> bytes -> Py t unit.

Definition frame_callback : Camera.ref -> bytes -> Py t unit :=
  AndroidCamera._on_preview_frame _camera set_camera bound.

Definition deliver_frame : bytes -> Py t unit :=
  AndroidCamera.deliver _camera set_camera bound.

Definition deliver_frames : list bytes -> t -> t :=
  AndroidCamera.deliver_all _camera set_camera bound.
End Bound.

(** [self._camera.bind(on_preview_frame=self._detect_qrcode_frame)]: the
    handler the detector binds. *)
Definition _on_preview_frame `{Platform} : Camera.ref -> bytes -> Py t unit :=
  frame_callback _detect_qrcode_frame.

Definition deliver `{Platform} : bytes -> Py t unit :=
  deliver_frame _detect_qrcode_frame.

Definition deliver_all `{Platform} : list bytes -> t -> t :=
  deliver_frames _detect_qrcode_frame.

Definition _on_surface_changed `{Platform} (fmt width height : Z)
  : Py t unit :=
  on_camera (AndroidCamera._on_surface_changed fmt width height).

(** The detector as the handler finds it when a frame is handed out: the
    buffer at the head of the queue has left it, [queue] remains. *)
Definition taken (p : Parameters.t) (queue : list bytes) (d : t) : t :=
  set_camera
    (state_of
       (AndroidCamera.set_android_camera (Some (Camera.mk p queue true))
          (_camera d)))
    d.

End ZbarQrcodeDetector.

(** ** A concrete platform

    A phone whose camera 0 starts at 640x480 in NV21 (ImageFormat 17, 12 bits
    per pixel) and accepts every parameter set.  Its zbar converts any
    non-empty frame to Y800 by keeping the luma plane, and finds one QR code
    in a frame whose first byte is 1, nothing in any other frame. *)
Module Phone.

Definition NV21 : Z := 17.

Definition parameters0 : Parameters.t :=
  Parameters.mk "auto" 0 [] (Size.mk 640 480) NV21.

Definition hello : Symbol.t :=
  Symbol.mk Symbol.QRCODE "HELLO" [10; 20; 30; 30] 1 1 0
            [(10, 20); (10, 50); (40, 50); (40, 20)].

Definition convert (i : Image.t) (fmt : string) : option Image.t :=
  match Image.data i with
  | [] => None
  | d =>
      Some (Image.mk (Image.width i) (Image.height i) fmt
              (firstn (Z.to_nat (Image.width i * Image.height i)) d))
  end.

Definition scanImage (sc : ImageScanner.t) (i : Image.t)
  : Z * list Symbol.t :=
  match Image.data i with
  | x01 :: _ => (1, [hello])
  | _ => (0, [])
  end.

Definition platform : Platform :=
  {| Camera_open := fun i => if i =? 0 then Some parameters0 else None;
     Camera_accepts := fun _ => true;
     ImageFormat_getBitsPerPixel := fun f => if f =? NV21 then 12 else -1;
     Image_convert := convert;
     ImageScanner_scanImage := scanImage |}.

(** The detector after construction, after [start], and after a surface of
    4x2 pixels has reported its size (frame buffers of 12 bytes). *)
Definition constructed : ZbarQrcodeDetector.t := ZbarQrcodeDetector.__init__.
Definition opened : ZbarQrcodeDetector.t :=
  state_of (@ZbarQrcodeDetector.start platform constructed).
Definition streaming : ZbarQrcodeDetector.t :=
  state_of (@ZbarQrcodeDetector._on_surface_changed platform 1 4 2 opened).

(** The camera a detector holds (the parameters of the device when it holds
    none). *)
Definition camera_of (d : ZbarQrcodeDetector.t) : Camera.t :=
  match AndroidCamera._android_camera (ZbarQrcodeDetector._camera d) with
  | Some cam => cam
  | None => Camera.mk parameters0 [] false
  end.

(** A frame showing the QR code, a frame showing nothing, and a frame the
    conversion fails on. *)
Definition frame_hello : bytes := [x01; x00; x00].
Definition frame_blank : bytes := [x00; x00; x00].
Definition frame_bad : bytes := [].


(** The methods on this platform, and the camera of the streaming session. *)
Definition surface_changed := @AndroidCamera.surface_changed platform.
Definition detect := @ZbarQrcodeDetector._detect_qrcode_frame platform.
Definition decoded := @ZbarQrcodeDetector.decoded platform.
Definition camera : Camera.t := camera_of streaming.

(** The detector once the frame showing the code has been handled. *)
Definition seen_hello : ZbarQrcodeDetector.t :=
  state_of (detect camera frame_hello streaming).

End Phone.


(** ** class AndroidWidgetHolder

    The placeholder widget that shows an Android view as an overlay.  The
    positions and sizes of a Kivy widget are Python numbers; the methods only
    pass them on and subtract them, so the model is generic in the number
    type [num] and its subtraction [sub].  [View] is the type of the Android
    views, compared by identity.

    The Android side is the list of the views attached to the content of the
    activity, [content], and the log of the calls made on views. *)
Module AndroidWidgetHolder.
Section Holder.
Variable num : Type.
Variable sub : num -> num -> num.
Variable View : Type.
Variable View_eq_dec : forall a b : View, {a = b} + {a <> b}.

Inductive call :=
| removeView (v : View)
| addContentView (v : View) (width height : num)
| setZOrderOnTop (v : View) (onTop : bool)
| setX (v : View) (x : num)
| setY (v : View) (y : num)
| setLayoutParams (v : View) (width height : num).

(** The Kivy properties [x], [y], [width], [height] and [view], the
    attributes [_old_view] and [_window] (of which only the height is read),
    and the Android side. *)
Record t := mk {
  x : num;
  y : num;
  width : num;
  height : num;
  view : option View;
  _old_view : option View;
  _window_height : num;
  content : list View;
  calls : list call
}.

(** [AndroidWidgetHolder(size=size, pos=pos)] in a window of the given
    height, over an activity showing [content]. *)
Definition __init__ (pos size : num * num) (window_height : num)
    (content : list View) : t :=
  mk (fst pos) (snd pos) (fst size) (snd size) None None window_height
     content [].

Definition set_view (v : option View) : Py t unit :=
  modify (fun s => mk (x s) (y s) (width s) (height s) v (_old_view s)
                      (_window_height s) (content s) (calls s)).
Definition set_old_view (v : option View) : Py t unit :=
  modify (fun s => mk (x s) (y s) (width s) (height s) (view s) v
                      (_window_height s) (content s) (calls s)).
Definition set_content (c : list View) : Py t unit :=
  modify (fun s => mk (x s) (y s) (width s) (height s) (view s) (_old_view s)
                      (_window_height s) c (calls s)).
Definition log (c : call) : Py t unit :=
  modify (fun s => mk (x s) (y s) (width s) (height s) (view s) (_old_view s)
                      (_window_height s) (content s) (calls s ++ [c])).

Definition attached (v : View) (s : t) : bool :=
  if in_dec View_eq_dec v (content s) then true else false.

Local Open Scope py_scope.

(** [cast(LinearLayout, v.getParent()).removeView(v)]: a view that is not
    attached has no parent, and the call on [None] raises. *)
Definition parent_removeView (v : View) : Py t unit :=
  s <- get ;;
  if attached v s
  then log (removeView v) ;;
       set_content (remove View_eq_dec v (content s))
  else raise AttributeError.

(** [context.addContentView(v, LayoutParams(width, height))]: Android
    refuses a view that already has a parent. *)
Definition context_addContentView (v : View) (width height : num)
  : Py t unit :=
  s <- get ;;
  log (addContentView v width height) ;;
  if attached v s
  then raise (JavaException "The specified child already has a parent")
  else set_content (content s ++ [v]).

(** [self._window.height - self.y - self.height] *)
Definition flipped_y (s : t) : num :=
  sub (sub (_window_height s) (y s)) (height s).

Definition on_view (view : option View) : Py t unit :=
  old <- gets _old_view ;;
  match old with
  | Some o => parent_removeView o ;; set_old_view None
  | None => ret tt
  end ;;
  match view with
  | None => ret tt
  | Some v =>
      s <- get ;;
      context_addContentView v (width s) (height s) ;;
      log (setZOrderOnTop v true) ;;
      log (setX v (x s)) ;;
      log (setY v (flipped_y s)) ;;
      set_old_view (Some v)
  end.

Definition on_size (size : num * num) : Py t unit :=
  s <- get ;;
  match view s with
  | Some v =>
      log (setLayoutParams v (width s) (height s)) ;;
      log (setY v (flipped_y s))
  | None => ret tt
  end.

Definition on_x (x : num) : Py t unit :=
  s <- get ;;
  match view s with
  | Some v => log (setX v x)
  | None => ret tt
  end.

Definition on_y (y : num) : Py t unit :=
  s <- get ;;
  match view s with
  | Some v => log (setY v (flipped_y s))
  | None => ret tt
  end.

(** [holder.view = v]: Kivy stores the value and calls [on_view] when it
    differs from the one held. *)
Definition assign_view (v : option View) : Py t unit :=
  s <- get ;;
  match v, view s with
  | None, None => ret tt
  | Some a, Some b =>
      if View_eq_dec a b then ret tt else set_view v ;; on_view v
  | _, _ => set_view v ;; on_view v
  end.

(** Assignments one after the other; an exception ends the run. *)
Fixpoint assign_views (vs : list (option View)) : Py t unit :=
  match vs with
  | [] => ret tt
  | v :: vs => assign_view v ;; assign_views vs
  end.

(** The view a run of assignments leaves, starting from [v0]. *)
Definition last_view (v0 : option View) (vs : list (option View))
  : option View :=
  last vs v0.

Definition shown (v : option View) : list View :=
  match v with Some a => [a] | None => [] end.

(** The holder and the activity agree: besides the views [others] of the
    activity's own, the content holds the view of the holder and nothing
    else, and [_old_view] is the view held. *)
Definition consistent (others : list View) (s : t) : Prop :=
  content s = others ++ shown (view s) /\
  _old_view s = view s /\
  match view s with Some v => ~ In v others | None => True end.

End Holder.

Arguments removeView {num View} v.
Arguments setZOrderOnTop {num View} v onTop.
Arguments shown {View} v.

End AndroidWidgetHolder.

(** ** Runs of the detector

    What can happen to a detector, in any order: the application calls
    [start] or [stop], the surface reports a change, the device hands out a
    frame from its queue, or a callback that was under way when [stop] ran
    arrives with the camera released.  An exception ends the call it is
    raised in; the next event finds the state that call left. *)
Module Run.





(** The parameters [start] applies to a device that opens with [p0]. *)
Definition start_parameters (p0 : Parameters.t) : Parameters.t :=
  Parameters.set "orientation" "portrait"
    (Parameters.setRotation 90
       (Parameters.setFocusMode "continuous-picture" p0)).

(** The list a detection pass over [frame] publishes, given the list
    published so far, on a camera with the parameters [p] and with the
    scanner [sc]: the records of the pass when the scan returns nonzero. *)
Definition publish `{Platform} (p : Parameters.t) (sc : ImageScanner.t)
    (published : list ZbarQrcodeDetector.Qrcode) (frame : bytes)
  : list ZbarQrcodeDetector.Qrcode :=
  match Image_convert
          (ZbarQrcodeDetector.nv21_image (Camera.mk p [] true) frame) "Y800"
  with
  | Some img =>
      let (result, found) := ImageScanner_scanImage sc img in
      if result =? 0 then published
      else map ZbarQrcodeDetector.qrcode_of found
  | None => published
  end.

(** Whether zbar converts the frame of a camera with the parameters [p]. *)
Definition convertible `{Platform} (p : Parameters.t) (frame : bytes)
  : bool :=
  match Image_convert
          (ZbarQrcodeDetector.nv21_image (Camera.mk p [] true) frame) "Y800"
  with
  | Some _ => true
  | None => false
  end.

End Run.

(** ** More concrete devices and a concrete holder *)
Module Devices.

(** The phone with a fixed-focus camera: it refuses every focus mode but
    the one it opens with. *)
Definition fixed_focus : Platform :=
  {| Camera_open := @Camera_open Phone.platform;
     Camera_accepts := fun p => String.eqb (Parameters.focusMode p) "auto";
     ImageFormat_getBitsPerPixel := @ImageFormat_getBitsPerPixel Phone.platform;
     Image_convert := @Image_convert Phone.platform;
     ImageScanner_scanImage := @ImageScanner_scanImage Phone.platform |}.

(** The phone with a camera of one preview size, 640 x 480. *)
Definition one_size : Platform :=
  {| Camera_open := @Camera_open Phone.platform;
     Camera_accepts :=
       fun p =>
         (Size.width (Parameters.previewSize p) =? 640)
         && (Size.height (Parameters.previewSize p) =? 480);
     ImageFormat_getBitsPerPixel := @ImageFormat_getBitsPerPixel Phone.platform;
     Image_convert := @Image_convert Phone.platform;
     ImageScanner_scanImage := @ImageScanner_scanImage Phone.platform |}.

(** A camera widget for camera 0 and one for camera 1, which the phone does
    not have. *)
Definition camera0 : AndroidCamera.t := AndroidCamera.__init__ 0.
Definition camera1 : AndroidCamera.t := AndroidCamera.__init__ 1.

(** A holder of 720 x 960 at the origin of a window 1280 high, over an
    activity showing the view 100; views are numbered, positions are
    integers. *)
Definition holder : AndroidWidgetHolder.t Z nat :=
  AndroidWidgetHolder.__init__ (0, 0) (720, 960) 1280 [100%nat].

(** A holder whose view 1 has been taken from the activity behind its
    back. *)
Definition orphaned : AndroidWidgetHolder.t Z nat :=
  AndroidWidgetHolder.mk 0 0 720 960 (Some 1%nat) (Some 1%nat) 1280
    [100%nat] [].

End Devices.

(** * Properties *)

Unset Implicit Arguments.

(** ** Floats: when the rounding is exact *)

Lemma Float_round_exact (m e : Z) :
  Z.abs m < 2 ^ 53 -> Float.round m e = Float.mk m e.
Proof.
  intros Hm. unfold Float.round, Float.excess.
  assert (Hlog : Z.log2 (Z.abs m) < 53).
  { destruct (Z.eq_dec (Z.abs m) 0) as [-> | Hnz].
    - reflexivity.
    - apply Z.log2_lt_pow2; lia. }
  destruct (Z.leb_spec (Z.log2 (Z.abs m) + 1 - 53) 0); [reflexivity | lia].
Qed.

Lemma Float_to_int_zero (e : Z) : Float.to_int (Float.mk 0 e) = 0.
Proof.
  unfold Float.to_int; simpl.
  destruct (Z.leb_spec 0 e); [reflexivity | apply Z.quot_0_l].
  apply Z.pow_nonzero; lia.
Qed.

Lemma str_mul_length (c : byte) (n : Z) :
  List.length (str_mul [c] n) = Z.to_nat n.
Proof.
  unfold str_mul. induction (Z.to_nat n) as [| k IH]; simpl; congruence.
Qed.

(** The buffer of [_on_surface_changed] on small inputs: an NV21 preview of
    3 x 3 pixels has 13.5 bytes, truncated to 13; a format of unknown depth
    (-1 bit per pixel) gives a negative count and so the empty string. *)
Example frame_buffer_truncates :
  AndroidCamera.frame_buffer 12 3 3 = repeat x00 13.
Proof. reflexivity. Qed.

Example frame_buffer_of_unknown_format :
  AndroidCamera.frame_buffer (-1) 4 2 = [].
Proof. reflexivity. Qed.

(** The byte count of the 960 x 720 surface, and a product that binary64
    cannot hold: beyond 2^53 the count is a rounded one. *)
Example byte_count_960_720 :
  Float.to_int
    (Float.mul (Float.of_int (960 * 720)) (Float.div8 (Float.of_int 12)))
  = 1036800.
Proof. reflexivity. Qed.

Example byte_count_rounded_beyond_2_53 :
  Float.to_int
    (Float.mul (Float.of_int ((2 ^ 27 + 1) * (2 ^ 27 + 1)))
               (Float.div8 (Float.of_int 8)))
  = (2 ^ 27 + 1) * (2 ^ 27 + 1) - 1.
Proof. reflexivity. Qed.

(** The length of the buffer of [_on_surface_changed], for every geometry
    whose byte count stays below 2^53. *)
Lemma frame_buffer_length (b w h : Z) :
  0 <= b -> 0 <= w -> 0 <= h -> w * h * b < 2 ^ 53 ->
  Z.of_nat (List.length (AndroidCamera.frame_buffer b w h)) = w * h * b / 8.
Proof.
  intros Hb Hw Hh Hlt.
  unfold AndroidCamera.frame_buffer. rewrite str_mul_length.
  assert (Hwh : 0 <= w * h) by nia.
  assert (Hto : Float.to_int
                  (Float.mul (Float.of_int (w * h))
                             (Float.div8 (Float.of_int b))) = w * h * b / 8).
  { destruct (Z.eq_dec (w * h) 0) as [E0 | Hn0];
      [ | destruct (Z.eq_dec b 0) as [Eb | Hb0] ].
    - rewrite E0. unfold Float.mul. simpl Float.of_int. simpl Float.mant.
      rewrite Float_round_exact by (simpl; lia).
      rewrite Float_to_int_zero. reflexivity.
    - subst b. unfold Float.mul. simpl Float.div8. simpl Float.mant.
      rewrite Z.mul_0_r, Float_round_exact by (simpl; lia).
      rewrite Float_to_int_zero, Z.mul_0_r. reflexivity.
    - unfold Float.of_int, Float.mul.
      rewrite (Float_round_exact b 0) by (rewrite Z.abs_eq; nia).
      rewrite (Float_round_exact (w * h) 0) by (rewrite Z.abs_eq; nia).
      simpl. rewrite Float_round_exact by (rewrite Z.abs_eq; nia).
      unfold Float.to_int; simpl.
      apply Z.quot_div_nonneg; nia. }
  rewrite Hto. apply Z2Nat.id. apply Z.div_pos; nia.
Qed.

(** ** The camera methods in closed form *)

Ltac run_py :=
  cbv beta iota delta
    [bind ret raise java get gets modify state_of returned
     AndroidCamera.the_camera AndroidCamera.the_surface AndroidCamera.log
     AndroidCamera.getParameters AndroidCamera.setParameters
     AndroidCamera.setDisplayOrientation AndroidCamera.setPreviewCallback_None
     AndroidCamera.release AndroidCamera.addCallbackBuffer
     AndroidCamera.setPreviewCallbackWithBuffer AndroidCamera.setPreviewDisplay
     AndroidCamera.startPreview AndroidCamera.set_android_camera
     AndroidCamera.set_android_surface AndroidCamera.set_android_surface_cb
     AndroidCamera.set_previewCallback AndroidCamera.set_holder_view
     AndroidCamera.zoom AndroidCamera.on_preview_frame
     AndroidCamera.dispatch PreviewCallback.onPreviewFrame
     SurfaceHolderCallback.surfaceChanged
     ZbarQrcodeDetector.on_camera ZbarQrcodeDetector.set_symbols
     ZbarQrcodeDetector.set_camera];
  cbn [fst snd
       AndroidCamera.index AndroidCamera._android_camera
       AndroidCamera._android_surface AndroidCamera._android_surface_cb
       AndroidCamera._previewCallback AndroidCamera._holder_view
       AndroidCamera.calls
       Camera.parameters Camera.buffers Camera.previewing Camera.getParameters
       ZbarQrcodeDetector.camera_size ZbarQrcodeDetector.symbols
       ZbarQrcodeDetector.show_bounds ZbarQrcodeDetector._camera
       ZbarQrcodeDetector._scanner].

Section CameraMethods.
Context {P : Platform}.

Lemma _on_surface_changed_open (s : AndroidCamera.t) (cam : Camera.t)
    (surface : SurfaceView) (fmt width height : Z) :
  AndroidCamera._android_camera s = Some cam ->
  AndroidCamera._android_surface s = Some surface ->
  Camera_accepts
    (AndroidCamera.surface_parameters (Camera.parameters cam) width height)
    = true ->
  AndroidCamera._on_surface_changed fmt width height s =
  (Ok tt,
   AndroidCamera.mk (AndroidCamera.index s)
     (Some (Camera.mk
              (AndroidCamera.surface_parameters (Camera.parameters cam)
                 width height)
              (Camera.buffers cam
                 ++ [AndroidCamera.surface_buffer (Camera.parameters cam)
                       width height;
                     AndroidCamera.surface_buffer (Camera.parameters cam)
                       width height])
              true))
     (AndroidCamera._android_surface s)
     (AndroidCamera._android_surface_cb s)
     true
     (AndroidCamera._holder_view s)
     (AndroidCamera.calls s
        ++ AndroidCamera.surface_calls (Camera.parameters cam) width height)).
Proof.
  intros Hcam Hsurf Hacc. destruct s as [i c sf cb pc hv log].
  simpl in Hcam, Hsurf. subst c sf.
  unfold AndroidCamera.surface_calls, AndroidCamera.surface_buffer,
    AndroidCamera.surface_parameters in *.
  unfold AndroidCamera._on_surface_changed. run_py.
  unfold Camera.getParameters. rewrite Hacc. run_py.
  rewrite <- !app_assoc. reflexivity.
Qed.

Lemma _on_surface_changed_closed (s : AndroidCamera.t) (fmt width height : Z) :
  AndroidCamera._android_camera s = None ->
  AndroidCamera._on_surface_changed fmt width height s
  = (Raised AttributeError, s).
Proof.
  intros Hcam. unfold AndroidCamera._on_surface_changed. run_py.
  rewrite Hcam. reflexivity.
Qed.

Lemma stop_closed (s : AndroidCamera.t) :
  AndroidCamera._android_camera s = None ->
  AndroidCamera.stop s = (Ok tt, s).
Proof.
  intros Hcam. unfold AndroidCamera.stop. run_py. rewrite Hcam. reflexivity.
Qed.

Lemma stop_open (s : AndroidCamera.t) (cam : Camera.t) :
  AndroidCamera._android_camera s = Some cam ->
  AndroidCamera.stop s =
  (Ok tt,
   AndroidCamera.mk (AndroidCamera.index s) None
     (AndroidCamera._android_surface s) (AndroidCamera._android_surface_cb s)
     (AndroidCamera._previewCallback s) None
     (AndroidCamera.calls s
        ++ [Camera.setPreviewCallback_None; Camera.release])).
Proof.
  intros Hcam. destruct s as [i c sf cb pc hv log]. simpl in Hcam. subst c.
  unfold AndroidCamera.stop. run_py. rewrite <- app_assoc. reflexivity.
Qed.

Lemma start_open (s : AndroidCamera.t) (cam : Camera.t) :
  AndroidCamera._android_camera s = Some cam ->
  AndroidCamera.start s = (Ok tt, s).
Proof.
  intros Hcam. unfold AndroidCamera.start. run_py. rewrite Hcam. reflexivity.
Qed.

End CameraMethods.

(** ** The session: start, stop and the surface notification *)

Section Session.
Context {P : Platform}.

(** C8.  Redundant lifecycle calls change nothing: [start] on a session that
    holds a camera (opening or streaming) and [stop] on a closed session
    return with the state as it was, and so a second [stop] right after a
    first changes nothing, on the camera widget and on the detector. *)
Theorem redundant_lifecycle_calls_are_noops (s : AndroidCamera.t)
    (d : ZbarQrcodeDetector.t) :
  (AndroidCamera.is_open s = true -> AndroidCamera.start s = (Ok tt, s)) /\
  (AndroidCamera.is_open s = false -> AndroidCamera.stop s = (Ok tt, s)) /\
  AndroidCamera.stop (state_of (AndroidCamera.stop s))
    = (Ok tt, state_of (AndroidCamera.stop s)) /\
  ZbarQrcodeDetector.stop (state_of (ZbarQrcodeDetector.stop d))
    = (Ok tt, state_of (ZbarQrcodeDetector.stop d)).
Proof.
  unfold AndroidCamera.is_open.
  repeat split.
  - destruct (AndroidCamera._android_camera s) as [cam |] eqn:E;
      [intros _ | discriminate].
    exact (start_open s cam E).
  - destruct (AndroidCamera._android_camera s) as [cam |] eqn:E;
      [discriminate | intros _].
    exact (stop_closed s E).
  - destruct (AndroidCamera._android_camera s) as [cam |] eqn:E.
    + rewrite (stop_open s cam E). apply stop_closed. reflexivity.
    + rewrite (stop_closed s E). apply stop_closed. exact E.
  - destruct d as [sz sy sb c sc]. unfold ZbarQrcodeDetector.stop. run_py.
    destruct (AndroidCamera._android_camera c) as [cam |] eqn:E.
    + rewrite (stop_open c cam E). run_py. rewrite stop_closed by reflexivity.
      reflexivity.
    + rewrite (stop_closed c E). run_py. rewrite (stop_closed c E).
      reflexivity.
Qed.

(** C2, as the code has it.  No gate guards the notification: on every
    session that holds a camera and its surface, and whose device accepts the
    size, a surface-change notification runs the whole sequence, whether or
    not the session is streaming already.  The preview is started once
    more, two more
    buffers are submitted and join the queue, and the session streams. *)
Theorem surface_change_always_begins_streaming (s : AndroidCamera.t)
    (cam : Camera.t) (surface : SurfaceView) (fmt width height : Z) :
  AndroidCamera._android_camera s = Some cam ->
  AndroidCamera._android_surface s = Some surface ->
  Camera_accepts
    (AndroidCamera.surface_parameters (Camera.parameters cam) width height)
    = true ->
  let r := AndroidCamera.surface_changed surface fmt width height s in
  returned r = true /\
  AndroidCamera.started (state_of r) = S (AndroidCamera.started s) /\
  AndroidCamera.submitted (state_of r) = S (S (AndroidCamera.submitted s)) /\
  List.length (AndroidCamera.queue (state_of r))
    = S (S (List.length (AndroidCamera.queue s))) /\
  AndroidCamera.streaming (state_of r) = true.
Proof.
  intros Hcam Hsurf Hacc r. subst r.
  unfold AndroidCamera.surface_changed, SurfaceHolderCallback.surfaceChanged.
  rewrite (_on_surface_changed_open s cam surface fmt width height
             Hcam Hsurf Hacc).
  unfold AndroidCamera.started, AndroidCamera.submitted, AndroidCamera.queue,
    AndroidCamera.streaming, state_of, returned.
  cbn [fst snd AndroidCamera.calls AndroidCamera._android_camera
       Camera.buffers Camera.previewing].
  rewrite Hcam, !filter_app, !length_app. simpl. repeat split; lia.
Qed.

(** C3.  When streaming begins on a session holding its surface and a
    camera that accepts the size and whose preview format has [b >= 0] bits
    per pixel, for a surface of [width] x [height] whose byte count
    stays below 2^53 (where the float product is exact), the calls made are
    the new parameters, then the same buffer submitted twice, then the
    callback, the display and the start of the preview; nothing else is
    submitted, and the buffer is [width * height * b / 8] bytes long. *)
Theorem two_buffers_of_frame_size_before_preview (s : AndroidCamera.t)
    (cam : Camera.t) (surface : SurfaceView) (fmt width height : Z) :
  AndroidCamera._android_camera s = Some cam ->
  AndroidCamera._android_surface s = Some surface ->
  Camera_accepts
    (AndroidCamera.surface_parameters (Camera.parameters cam) width height)
    = true ->
  let b :=
    ImageFormat_getBitsPerPixel
      (Parameters.getPreviewFormat (Camera.parameters cam)) in
  0 <= width -> 0 <= height -> 0 <= b -> width * height * b < 2 ^ 53 ->
  let r := AndroidCamera._on_surface_changed fmt width height s in
  exists buf : bytes,
    returned r = true /\
    AndroidCamera.calls (state_of r) =
      AndroidCamera.calls s ++
      [Camera.setParameters
         (AndroidCamera.surface_parameters (Camera.parameters cam)
            width height);
       Camera.addCallbackBuffer buf;
       Camera.addCallbackBuffer buf;
       Camera.setPreviewCallbackWithBuffer;
       Camera.setPreviewDisplay;
       Camera.startPreview] /\
    Z.of_nat (List.length buf) = width * height * b / 8.
Proof.
  intros Hcam Hsurf Hacc b Hw Hh Hb Hlt r. subst r.
  rewrite (_on_surface_changed_open s cam surface fmt width height
             Hcam Hsurf Hacc).
  exists (AndroidCamera.surface_buffer (Camera.parameters cam) width height).
  split; [reflexivity | split; [reflexivity | ] ].
  unfold AndroidCamera.surface_buffer.
  apply frame_buffer_length; assumption.
Qed.

End Session.

(** ** The detector *)

Section Detector.
Context {P : Platform}.

Lemma on_camera_run {A} (m : Py AndroidCamera.t A) (d : ZbarQrcodeDetector.t) :
  ZbarQrcodeDetector.on_camera m d =
  (fst (m (ZbarQrcodeDetector._camera d)),
   ZbarQrcodeDetector.set_camera (snd (m (ZbarQrcodeDetector._camera d))) d).
Proof.
  unfold ZbarQrcodeDetector.on_camera, AndroidCamera.zoom.
  destruct (m (ZbarQrcodeDetector._camera d)); reflexivity.
Qed.

Lemma extract_map (it : list Symbol.t)
    (symbols : list ZbarQrcodeDetector.Qrcode) :
  ZbarQrcodeDetector.extract it symbols
  = symbols ++ map ZbarQrcodeDetector.qrcode_of it.
Proof.
  revert symbols. induction it as [| symbol it IH]; intros symbols; simpl.
  - now rewrite app_nil_r.
  - rewrite IH, <- app_assoc. reflexivity.
Qed.

(** The three ways a detection pass ends. *)
Lemma detect_unconverted (camera : Camera.t) (data : bytes)
    (d : ZbarQrcodeDetector.t) :
  ZbarQrcodeDetector.decoded camera data d = None ->
  ZbarQrcodeDetector._detect_qrcode_frame camera data d
  = (Raised (JavaException "NullPointerException"), d).
Proof.
  unfold ZbarQrcodeDetector.decoded, ZbarQrcodeDetector.nv21_image,
    ZbarQrcodeDetector._detect_qrcode_frame.
  cbv beta iota zeta delta [bind java Camera.getParameters].
  destruct (Image_convert _ _); [discriminate | reflexivity].
Qed.

Lemma detect_nothing (camera : Camera.t) (data : bytes)
    (d : ZbarQrcodeDetector.t) (found : list Symbol.t) :
  ZbarQrcodeDetector.decoded camera data d = Some (0, found) ->
  ZbarQrcodeDetector._detect_qrcode_frame camera data d = (Ok tt, d).
Proof.
  unfold ZbarQrcodeDetector.decoded, ZbarQrcodeDetector.nv21_image,
    ZbarQrcodeDetector._detect_qrcode_frame.
  cbv beta iota zeta delta [bind java Camera.getParameters].
  destruct (Image_convert _ _) as [img |]; [ | discriminate].
  simpl. intros [= E]. run_py. rewrite E. reflexivity.
Qed.

Lemma detect_something (camera : Camera.t) (data : bytes)
    (d : ZbarQrcodeDetector.t) (result : Z) (found : list Symbol.t) :
  ZbarQrcodeDetector.decoded camera data d = Some (result, found) ->
  result <> 0 ->
  ZbarQrcodeDetector._detect_qrcode_frame camera data d
  = (Ok tt,
     ZbarQrcodeDetector.mk (ZbarQrcodeDetector.camera_size d)
       (map ZbarQrcodeDetector.qrcode_of found)
       (ZbarQrcodeDetector.show_bounds d) (ZbarQrcodeDetector._camera d)
       (ZbarQrcodeDetector._scanner d)).
Proof.
  unfold ZbarQrcodeDetector.decoded, ZbarQrcodeDetector.nv21_image,
    ZbarQrcodeDetector._detect_qrcode_frame.
  cbv beta iota zeta delta [bind java Camera.getParameters].
  destruct (Image_convert _ _) as [img |]; [ | discriminate].
  simpl. intros [= E] Hnz. run_py. rewrite E.
  destruct (Z.eqb_spec result 0) as [-> | _]; [contradiction | ].
  run_py. rewrite extract_map. reflexivity.
Qed.

(** On a released camera the pass ends at [getParameters]. *)
Lemma detect_released (data : bytes) (d : ZbarQrcodeDetector.t) :
  ZbarQrcodeDetector._detect_qrcode_frame Camera.Released data d
  = (Raised (JavaException "Method called after release()"), d).
Proof. reflexivity. Qed.

(** A detection pass touches neither the camera nor the scanner. *)
Lemma detect_frame (camera : Camera.ref) (data : bytes)
    (d : ZbarQrcodeDetector.t) :
  let d' := state_of (ZbarQrcodeDetector._detect_qrcode_frame camera data d) in
  ZbarQrcodeDetector._camera d' = ZbarQrcodeDetector._camera d /\
  ZbarQrcodeDetector._scanner d' = ZbarQrcodeDetector._scanner d.
Proof.
  destruct camera as [cam |]; [ | split; reflexivity].
  destruct (ZbarQrcodeDetector.decoded cam data d)
    as [[result found] |] eqn:E.
  - destruct (Z.eq_dec result 0) as [-> | Hnz].
    + rewrite (detect_nothing _ _ _ _ E). split; reflexivity.
    + rewrite (detect_something _ _ _ _ _ E Hnz). split; reflexivity.
  - rewrite (detect_unconverted _ _ _ E). split; reflexivity.
Qed.

Lemma detector_stop_run (d : ZbarQrcodeDetector.t) :
  ZbarQrcodeDetector.stop d =
  (Ok tt,
   ZbarQrcodeDetector.mk (ZbarQrcodeDetector.camera_size d) []
     (ZbarQrcodeDetector.show_bounds d)
     (state_of (AndroidCamera.stop (ZbarQrcodeDetector._camera d)))
     (ZbarQrcodeDetector._scanner d)).
Proof.
  destruct d as [sz sy sb c sc]. unfold ZbarQrcodeDetector.stop. run_py.
  destruct (AndroidCamera._android_camera c) as [cam |] eqn:Hc.
  - rewrite (stop_open c cam Hc). reflexivity.
  - rewrite (stop_closed c Hc). reflexivity.
Qed.

(** C10.  [stop] always returns with an empty published list, whatever the
    last pass published; the camera is what its own [stop] leaves, run after
    the list has been cleared, and nothing else changes. *)
Theorem stop_clears_symbols (d : ZbarQrcodeDetector.t) :
  ZbarQrcodeDetector.stop d =
  (Ok tt,
   ZbarQrcodeDetector.mk (ZbarQrcodeDetector.camera_size d) []
     (ZbarQrcodeDetector.show_bounds d)
     (state_of (AndroidCamera.stop (ZbarQrcodeDetector._camera d)))
     (ZbarQrcodeDetector._scanner d)) /\
  ZbarQrcodeDetector.symbols (state_of (ZbarQrcodeDetector.stop d)) = [] /\
  AndroidCamera.is_open
    (ZbarQrcodeDetector._camera (state_of (ZbarQrcodeDetector.stop d)))
  = false.
Proof.
  rewrite (detector_stop_run d).
  split; [reflexivity | split; [reflexivity | ] ].
  unfold state_of, AndroidCamera.is_open. cbn [snd ZbarQrcodeDetector._camera].
  destruct (AndroidCamera._android_camera (ZbarQrcodeDetector._camera d))
    as [cam |] eqn:Hc.
  - rewrite (stop_open _ cam Hc). reflexivity.
  - rewrite (stop_closed _ Hc). cbn [snd]. rewrite Hc. reflexivity.
Qed.

(** C7.  On a session that holds its surface and a camera whose device
    accepts the size, a surface reporting [width] x [height] leaves the
    camera with a preview
    size of [height] x [width], the two swapped, in the preview format it
    had; and the image the decode pipeline wraps a frame of that camera in is
    [height] wide, [width] high and tagged NV21. *)
Theorem surface_size_is_applied_swapped (d : ZbarQrcodeDetector.t)
    (cam : Camera.t) (surface : SurfaceView) (fmt width height : Z) :
  AndroidCamera._android_camera (ZbarQrcodeDetector._camera d) = Some cam ->
  AndroidCamera._android_surface (ZbarQrcodeDetector._camera d)
    = Some surface ->
  Camera_accepts
    (AndroidCamera.surface_parameters (Camera.parameters cam) width height)
    = true ->
  let r := ZbarQrcodeDetector._on_surface_changed fmt width height d in
  exists cam' : Camera.t,
    returned r = true /\
    AndroidCamera._android_camera (ZbarQrcodeDetector._camera (state_of r))
      = Some cam' /\
    Camera.getParameters cam' = Ok (Camera.parameters cam') /\
    Parameters.getPreviewSize (Camera.parameters cam')
      = Size.mk height width /\
    Parameters.getPreviewFormat (Camera.parameters cam')
      = Parameters.getPreviewFormat (Camera.parameters cam) /\
    forall data : bytes,
      ZbarQrcodeDetector.nv21_image cam' data
      = Image.mk height width "NV21" data.
Proof.
  intros Hcam Hsurf Hacc r. subst r.
  unfold ZbarQrcodeDetector._on_surface_changed. rewrite on_camera_run.
  rewrite (_on_surface_changed_open _ cam surface fmt width height
             Hcam Hsurf Hacc).
  eexists. unfold returned, state_of.
  cbn [fst snd ZbarQrcodeDetector.set_camera ZbarQrcodeDetector._camera
       AndroidCamera._android_camera].
  repeat split.
Qed.

End Detector.

(** ** Frames: the preview callback under any bound handler *)

Section Frames.

(** The handler bound to [on_preview_frame] of the detector's camera. *)
Variable bound : Camera.ref -> bytes -> Py ZbarQrcodeDetector.t unit.

Lemma frame_callback_raised (camera : Camera.ref) (data : bytes)
    (d d1 : ZbarQrcodeDetector.t) (e : exn) :
  bound camera data d = (Raised e, d1) ->
  ZbarQrcodeDetector.frame_callback bound camera data d = (Raised e, d1).
Proof.
  intros Hb. unfold ZbarQrcodeDetector.frame_callback,
    AndroidCamera._on_preview_frame.
  run_py. rewrite Hb. reflexivity.
Qed.

Lemma frame_callback_returned (camera : Camera.ref) (data : bytes)
    (d d1 : ZbarQrcodeDetector.t) (cam : Camera.t) :
  bound camera data d = (Ok tt, d1) ->
  AndroidCamera._android_camera (ZbarQrcodeDetector._camera d1) = Some cam ->
  ZbarQrcodeDetector.frame_callback bound camera data d =
  (Ok tt,
   ZbarQrcodeDetector.set_camera
     (AndroidCamera.resubmitted data cam (ZbarQrcodeDetector._camera d1)) d1).
Proof.
  intros Hb Hcam. unfold ZbarQrcodeDetector.frame_callback,
    AndroidCamera._on_preview_frame.
  run_py. rewrite Hb. run_py. rewrite Hcam. reflexivity.
Qed.

Lemma frame_callback_returned_closed (camera : Camera.ref) (data : bytes)
    (d d1 : ZbarQrcodeDetector.t) :
  bound camera data d = (Ok tt, d1) ->
  AndroidCamera._android_camera (ZbarQrcodeDetector._camera d1) = None ->
  state_of (ZbarQrcodeDetector.frame_callback bound camera data d) = d1.
Proof.
  intros Hb Hcam. unfold ZbarQrcodeDetector.frame_callback,
    AndroidCamera._on_preview_frame.
  run_py. rewrite Hb. run_py. rewrite Hcam. destruct d1; reflexivity.
Qed.

(** C4, as the code has it.  For a delivered frame whose handler returns
    normally and leaves a camera held, the callback returns and its one call
    on the camera is the resubmission of the frame's buffer: the call comes
    last in the log, after all that the handler did, and the buffer joins the
    end of the queue. *)
Theorem buffer_resubmitted_once_after_handler (camera : Camera.ref)
    (data : bytes) (d d1 : ZbarQrcodeDetector.t) (cam : Camera.t) :
  bound camera data d = (Ok tt, d1) ->
  AndroidCamera._android_camera (ZbarQrcodeDetector._camera d1) = Some cam ->
  let r := ZbarQrcodeDetector.frame_callback bound camera data d in
  let c1 := ZbarQrcodeDetector._camera d1 in
  let c' := ZbarQrcodeDetector._camera (state_of r) in
  returned r = true /\
  AndroidCamera.calls c'
    = AndroidCamera.calls c1 ++ [Camera.addCallbackBuffer data] /\
  AndroidCamera.submitted c' = S (AndroidCamera.submitted c1) /\
  AndroidCamera.queue c' = AndroidCamera.queue c1 ++ [data] /\
  ZbarQrcodeDetector.symbols (state_of r) = ZbarQrcodeDetector.symbols d1.
Proof.
  intros Hb Hcam r c1 c'. subst r c1 c'.
  rewrite (frame_callback_returned _ _ _ _ _ Hb Hcam).
  unfold returned, state_of, AndroidCamera.submitted, AndroidCamera.queue,
    AndroidCamera.resubmitted.
  cbn [fst snd ZbarQrcodeDetector.set_camera ZbarQrcodeDetector._camera
       ZbarQrcodeDetector.symbols AndroidCamera.calls
       AndroidCamera._android_camera Camera.buffers].
  rewrite Hcam, filter_app, length_app. simpl.
  repeat split. lia.
Qed.

(** *** Handlers that leave the camera alone *)

Hypothesis bound_keeps_camera :
  forall camera data d,
    ZbarQrcodeDetector._camera (state_of (bound camera data d))
    = ZbarQrcodeDetector._camera d.

Lemma deliver_frame_streaming (frame : bytes) (d : ZbarQrcodeDetector.t)
    (p : Parameters.t) (b : bytes) (q : list bytes) :
  AndroidCamera._android_camera (ZbarQrcodeDetector._camera d)
    = Some (Camera.mk p (b :: q) true) ->
  ZbarQrcodeDetector.deliver_frame bound frame d
  = ZbarQrcodeDetector.frame_callback bound (Camera.mk p q true) frame
      (ZbarQrcodeDetector.taken p q d).
Proof.
  intros Hcam. unfold ZbarQrcodeDetector.deliver_frame,
    AndroidCamera.deliver. run_py.
  rewrite Hcam. reflexivity.
Qed.

Lemma deliver_frame_idle (frame : bytes) (d : ZbarQrcodeDetector.t) :
  (forall p b q,
      AndroidCamera._android_camera (ZbarQrcodeDetector._camera d)
      <> Some (Camera.mk p (b :: q) true)) ->
  ZbarQrcodeDetector.deliver_frame bound frame d = (Ok tt, d).
Proof.
  intros Hidle. unfold ZbarQrcodeDetector.deliver_frame,
    AndroidCamera.deliver. run_py.
  destruct d as [sz sy sb c sc]. cbn [ZbarQrcodeDetector._camera] in *.
  destruct c as [i [[p [| b q] [|]] |] sf cb pc hv log];
    cbn [AndroidCamera._android_camera] in *; try reflexivity.
  exfalso. exact (Hidle p b q eq_refl).
Qed.

Lemma taken_queue (p : Parameters.t) (q : list bytes)
    (d : ZbarQrcodeDetector.t) :
  AndroidCamera._android_camera
    (ZbarQrcodeDetector._camera (ZbarQrcodeDetector.taken p q d))
    = Some (Camera.mk p q true) /\
  AndroidCamera.calls
    (ZbarQrcodeDetector._camera (ZbarQrcodeDetector.taken p q d))
    = AndroidCamera.calls (ZbarQrcodeDetector._camera d).
Proof. destruct d as [sz sy sb c sc]. split; reflexivity. Qed.




End Frames.

(** ** Detection passes and publication *)

Section Publication.
Context {P : Platform}.

(** C1, as the code has it.  A pass whose scan returns nonzero replaces the
    published list by the records of that pass, whatever was published
    before; a pass whose scan returns zero returns early and leaves the
    detector, the published list included, as it was. *)
Theorem publication_replaces_only_on_detection (camera : Camera.t)
    (data : bytes) (d : ZbarQrcodeDetector.t) (result : Z)
    (found : list Symbol.t) :
  ZbarQrcodeDetector.decoded camera data d = Some (result, found) ->
  let r := ZbarQrcodeDetector._detect_qrcode_frame camera data d in
  returned r = true /\
  (result <> 0 ->
   ZbarQrcodeDetector.symbols (state_of r)
   = map ZbarQrcodeDetector.qrcode_of found) /\
  (result = 0 -> state_of r = d).
Proof.
  intros Hdec r. subst r.
  destruct (Z.eq_dec result 0) as [-> | Hnz].
  - rewrite (detect_nothing _ _ _ _ Hdec).
    split; [reflexivity | split; [intros H; now elim H | reflexivity] ].
  - rewrite (detect_something _ _ _ _ _ Hdec Hnz).
    split; [reflexivity | split; [reflexivity | intros H; now elim Hnz] ].
Qed.

(** C5.  On a frame whose scan returns nonzero the published list holds one
    record per symbol of the decoder's result set, in the order of its
    iterator, and the record of a symbol is made of its type, data, bounds,
    quality and count, and of nothing else. *)
Theorem one_record_per_symbol_in_iterator_order (camera : Camera.t)
    (data : bytes) (d : ZbarQrcodeDetector.t) (result : Z)
    (found : list Symbol.t) :
  ZbarQrcodeDetector.decoded camera data d = Some (result, found) ->
  result <> 0 ->
  let published :=
    ZbarQrcodeDetector.symbols
      (state_of (ZbarQrcodeDetector._detect_qrcode_frame camera data d)) in
  published =
    map (fun symbol =>
           ZbarQrcodeDetector.mkQrcode
             (Symbol.getType symbol) (Symbol.getData symbol)
             (Symbol.getBounds symbol) (Symbol.getQuality symbol)
             (Symbol.getCount symbol))
        found /\
  List.length published = List.length found /\
  forall (i : nat) (symbol : Symbol.t),
    nth_error found i = Some symbol ->
    exists qrcode : ZbarQrcodeDetector.Qrcode,
      nth_error published i = Some qrcode /\
      ZbarQrcodeDetector.type qrcode = Symbol.getType symbol /\
      ZbarQrcodeDetector.data qrcode = Symbol.getData symbol /\
      ZbarQrcodeDetector.bounds qrcode = Symbol.getBounds symbol /\
      ZbarQrcodeDetector.quality qrcode = Symbol.getQuality symbol /\
      ZbarQrcodeDetector.count qrcode = Symbol.getCount symbol.
Proof.
  intros Hdec Hnz published. subst published.
  rewrite (detect_something _ _ _ _ _ Hdec Hnz).
  unfold state_of. cbn [snd ZbarQrcodeDetector.symbols].
  split; [reflexivity | split; [apply length_map | ] ].
  intros i symbol Hi.
  exists (ZbarQrcodeDetector.qrcode_of symbol).
  split; [ | repeat split].
  rewrite nth_error_map, Hi. reflexivity.
Qed.

Lemma frame_callback_scanner (camera : Camera.t) (data : bytes)
    (d : ZbarQrcodeDetector.t) :
  ZbarQrcodeDetector._scanner
    (state_of (ZbarQrcodeDetector._on_preview_frame camera data d))
  = ZbarQrcodeDetector._scanner d.
Proof.
  unfold ZbarQrcodeDetector._on_preview_frame.
  destruct (detect_frame camera data d) as [_ Hsc].
  destruct (ZbarQrcodeDetector._detect_qrcode_frame camera data d)
    as [[[] | e] d1] eqn:Hb; unfold state_of in Hsc; cbn [snd] in Hsc.
  - destruct (AndroidCamera._android_camera (ZbarQrcodeDetector._camera d1))
      as [cam |] eqn:Hcam.
    + rewrite (frame_callback_returned _ _ _ _ _ _ Hb Hcam). exact Hsc.
    + rewrite (frame_callback_returned_closed _ _ _ _ _ Hb Hcam). exact Hsc.
  - rewrite (frame_callback_raised _ _ _ _ _ _ Hb). exact Hsc.
Qed.

(** C6.  The scanner is configured in the constructor by four calls: all
    symbologies off, QR code on, horizontal density 3, vertical density 3.
    The outcome is that QR code is the one symbology enabled and both
    densities are 3.  No method run later configures it: a frame, delivered
    or handled, a surface notification, [start] and [stop] all leave the
    calls the scanner has received as they were. *)
Theorem decoder_configured_once_at_construction :
  ZbarQrcodeDetector._scanner ZbarQrcodeDetector.__init__
  = [(0, Config.ENABLE, 0); (Symbol.QRCODE, Config.ENABLE, 1);
     (0, Config.X_DENSITY, 3); (0, Config.Y_DENSITY, 3)] /\
  (forall symbology dflt : Z,
      ImageScanner.config Config.ENABLE symbology dflt
        (ZbarQrcodeDetector._scanner ZbarQrcodeDetector.__init__)
      = if symbology =? Symbol.QRCODE then 1 else 0) /\
  (forall symbology dflt : Z,
      ImageScanner.config Config.X_DENSITY symbology dflt
        (ZbarQrcodeDetector._scanner ZbarQrcodeDetector.__init__) = 3 /\
      ImageScanner.config Config.Y_DENSITY symbology dflt
        (ZbarQrcodeDetector._scanner ZbarQrcodeDetector.__init__) = 3) /\
  (forall (d : ZbarQrcodeDetector.t) (camera : Camera.t) (data : bytes)
          (fmt width height : Z),
      let unchanged (r : result unit * ZbarQrcodeDetector.t) :=
        ZbarQrcodeDetector._scanner (state_of r)
        = ZbarQrcodeDetector._scanner d in
      unchanged (ZbarQrcodeDetector._detect_qrcode_frame camera data d) /\
      unchanged (ZbarQrcodeDetector._on_preview_frame camera data d) /\
      unchanged (ZbarQrcodeDetector.deliver data d) /\
      unchanged (ZbarQrcodeDetector._on_surface_changed fmt width height d) /\
      unchanged (ZbarQrcodeDetector.start d) /\
      unchanged (ZbarQrcodeDetector.stop d)).
Proof.
  split; [reflexivity | split; [ | split] ].
  - intros symbology dflt. cbn -[Z.eqb]. unfold Symbol.QRCODE.
    change (0 =? 0) with true. change (64 =? 0) with false. cbn -[Z.eqb].
    rewrite (Z.eqb_sym symbology 64).
    destruct (64 =? symbology); reflexivity.
  - intros symbology dflt. split; reflexivity.
  - intros d camera data fmt width height unchanged. subst unchanged.
    repeat split.
    + apply detect_frame.
    + apply frame_callback_scanner.
    + unfold ZbarQrcodeDetector.deliver.
      destruct (AndroidCamera._android_camera (ZbarQrcodeDetector._camera d))
        as [[p [| b q] [|]] |] eqn:Hcam;
        try (rewrite deliver_frame_idle by (intros; congruence); reflexivity).
      rewrite (deliver_frame_streaming _ data _ _ _ _ Hcam).
      fold (ZbarQrcodeDetector._on_preview_frame (Camera.mk p q true) data
              (ZbarQrcodeDetector.taken p q d)).
      rewrite frame_callback_scanner. destruct d; reflexivity.
    + unfold ZbarQrcodeDetector._on_surface_changed. rewrite on_camera_run.
      destruct d; reflexivity.
    + unfold ZbarQrcodeDetector.start. rewrite on_camera_run.
      destruct d; reflexivity.
    + rewrite (detector_stop_run d). reflexivity.
Qed.

End Publication.

(** ** The properties on the phone *)

(** C1: the list published for a frame showing the code is still published
    after the next frame, which shows nothing. *)
Lemma empty_pass_keeps_published_list :
  let d1 :=
    state_of (Phone.detect Phone.camera Phone.frame_hello Phone.streaming) in
  let d2 := state_of (Phone.detect Phone.camera Phone.frame_blank d1) in
  Phone.decoded Phone.camera Phone.frame_hello Phone.streaming
  = Some (1, [Phone.hello]) /\
  Phone.decoded Phone.camera Phone.frame_blank d1 = Some (0, []) /\
  ZbarQrcodeDetector.symbols d1 = [ZbarQrcodeDetector.qrcode_of Phone.hello] /\
  ZbarQrcodeDetector.symbols d2 = [ZbarQrcodeDetector.qrcode_of Phone.hello] /\
  ZbarQrcodeDetector.symbols d2 <> [].
Proof.
  repeat split; try reflexivity. vm_compute. discriminate.
Qed.

Lemma publication_on_phone :
  state_of
    (Phone.detect Phone.camera Phone.frame_blank
       (state_of (Phone.detect Phone.camera Phone.frame_hello Phone.streaming)))
  = state_of (Phone.detect Phone.camera Phone.frame_hello Phone.streaming) /\
  ZbarQrcodeDetector.symbols
    (state_of (Phone.detect Phone.camera Phone.frame_hello Phone.streaming))
  = [ZbarQrcodeDetector.qrcode_of Phone.hello].
Proof.
  split.
  - apply (@publication_replaces_only_on_detection Phone.platform Phone.camera
             Phone.frame_blank _ 0 []);
      reflexivity.
  - apply (@publication_replaces_only_on_detection Phone.platform Phone.camera
             Phone.frame_hello Phone.streaming 1 [Phone.hello]);
      [reflexivity | discriminate].
Defined.

(** C2: a second notification on the streaming session starts the preview a
    second time and submits two more buffers. *)
Lemma second_surface_change_begins_streaming_again :
  let s := ZbarQrcodeDetector._camera Phone.streaming in
  let s' := state_of (Phone.surface_changed SurfaceView_new 1 4 2 s) in
  AndroidCamera.streaming s = true /\
  AndroidCamera.started s = 1%nat /\
  AndroidCamera.started s' = 2%nat /\
  AndroidCamera.submitted s = 2%nat /\
  AndroidCamera.submitted s' = 4%nat /\
  AndroidCamera.started s' <> AndroidCamera.started s.
Proof.
  repeat split; try reflexivity. vm_compute. discriminate.
Qed.

Lemma surface_change_on_streaming_phone :
  AndroidCamera.streaming (ZbarQrcodeDetector._camera Phone.streaming) = true /\
  AndroidCamera.started
    (state_of
       (Phone.surface_changed SurfaceView_new 1 4 2
          (ZbarQrcodeDetector._camera Phone.streaming)))
  = S (AndroidCamera.started (ZbarQrcodeDetector._camera Phone.streaming)).
Proof.
  split; [reflexivity | ].
  apply (@surface_change_always_begins_streaming Phone.platform
           (ZbarQrcodeDetector._camera Phone.streaming) Phone.camera
           SurfaceView_new 1 4 2);
    reflexivity.
Defined.

(** C3 and C7 at the surface of the specification, 960 x 720, on the opened
    phone: two buffers of 1036800 bytes, a preview size of 720 x 960. *)
Lemma two_buffers_on_phone :
  exists buf : bytes,
    AndroidCamera.calls
      (state_of
         (@AndroidCamera._on_surface_changed Phone.platform 1 960 720
            (ZbarQrcodeDetector._camera Phone.opened)))
    = AndroidCamera.calls (ZbarQrcodeDetector._camera Phone.opened) ++
      [Camera.setParameters
         (AndroidCamera.surface_parameters
            (Camera.parameters (Phone.camera_of Phone.opened)) 960 720);
       Camera.addCallbackBuffer buf;
       Camera.addCallbackBuffer buf;
       Camera.setPreviewCallbackWithBuffer;
       Camera.setPreviewDisplay;
       Camera.startPreview] /\
    Z.of_nat (List.length buf) = 1036800.
Proof.
  assert (Hpos : 0 <= 960 /\ 0 <= 720 /\ 0 <= 12) by lia.
  destruct Hpos as (Hw & Hh & Hb).
  destruct (@two_buffers_of_frame_size_before_preview Phone.platform
              (ZbarQrcodeDetector._camera Phone.opened)
              (Phone.camera_of Phone.opened) SurfaceView_new 1 960 720
              eq_refl eq_refl eq_refl Hw Hh Hb eq_refl)
    as (buf & _ & Hcalls & Hlen).
  exists buf. split; [exact Hcalls | exact Hlen].
Defined.

Lemma surface_960_720_on_phone :
  exists cam' : Camera.t,
    AndroidCamera._android_camera
      (ZbarQrcodeDetector._camera
         (state_of
            (@ZbarQrcodeDetector._on_surface_changed Phone.platform 1 960 720
               Phone.opened)))
    = Some cam' /\
    Parameters.getPreviewSize (Camera.parameters cam') = Size.mk 720 960 /\
    Parameters.getPreviewFormat (Camera.parameters cam') = Phone.NV21.
Proof.
  destruct (@surface_size_is_applied_swapped Phone.platform Phone.opened
              (Phone.camera_of Phone.opened) SurfaceView_new 1 960 720
              eq_refl eq_refl eq_refl)
    as (cam' & _ & Hcam & _ & Hsize & Hfmt & _).
  exists cam'. split; [exact Hcam | split; [exact Hsize | exact Hfmt] ].
Defined.

(** C4: on the frame the conversion fails on, the handler raises and the
    callback ends without a call on the camera: nothing is resubmitted, and
    after the delivery one of the two buffers is gone from the queue.  A
    callback that arrives once [stop] has run comes with the released
    camera: the handler raises at [getParameters] and nothing is
    resubmitted either. *)
Lemma raising_handler_skips_resubmission :
  let r :=
    @ZbarQrcodeDetector._on_preview_frame Phone.platform Phone.camera
      Phone.frame_bad Phone.streaming in
  let r' :=
    @ZbarQrcodeDetector.deliver Phone.platform Phone.frame_bad
      Phone.streaming in
  let stopped := state_of (ZbarQrcodeDetector.stop Phone.streaming) in
  let late :=
    @ZbarQrcodeDetector._on_preview_frame Phone.platform Camera.Released
      Phone.frame_hello stopped in
  returned r = false /\
  AndroidCamera.calls (ZbarQrcodeDetector._camera (state_of r))
  = AndroidCamera.calls (ZbarQrcodeDetector._camera Phone.streaming) /\
  AndroidCamera.submitted (ZbarQrcodeDetector._camera (state_of r))
  = AndroidCamera.submitted (ZbarQrcodeDetector._camera Phone.streaming) /\
  List.length (AndroidCamera.queue (ZbarQrcodeDetector._camera Phone.streaming))
  = 2%nat /\
  List.length (AndroidCamera.queue (ZbarQrcodeDetector._camera (state_of r')))
  = 1%nat /\
  late = (Raised (JavaException "Method called after release()"), stopped) /\
  AndroidCamera.submitted (ZbarQrcodeDetector._camera (state_of late))
  = AndroidCamera.submitted (ZbarQrcodeDetector._camera stopped).
Proof. vm_compute. repeat split. Qed.

Lemma resubmission_on_phone :
  AndroidCamera.calls
    (ZbarQrcodeDetector._camera
       (state_of
          (ZbarQrcodeDetector.frame_callback Phone.detect Phone.camera
             Phone.frame_hello Phone.streaming)))
  = AndroidCamera.calls (ZbarQrcodeDetector._camera Phone.seen_hello)
    ++ [Camera.addCallbackBuffer Phone.frame_hello].
Proof.
  assert (Hb : Phone.detect Phone.camera Phone.frame_hello Phone.streaming
               = (Ok tt, Phone.seen_hello))
    by (vm_compute; reflexivity).
  assert (Hcam : AndroidCamera._android_camera
                   (ZbarQrcodeDetector._camera Phone.seen_hello)
                 = Some Phone.camera)
    by (vm_compute; reflexivity).
  exact (proj1 (proj2
    (buffer_resubmitted_once_after_handler Phone.detect Phone.camera
       Phone.frame_hello Phone.streaming Phone.seen_hello Phone.camera
       Hb Hcam))).
Defined.

Lemma records_on_phone :
  ZbarQrcodeDetector.symbols
    (state_of (Phone.detect Phone.camera Phone.frame_hello Phone.streaming))
  = [ZbarQrcodeDetector.mkQrcode Symbol.QRCODE "HELLO" [10; 20; 30; 30] 1 1].
Proof.
  apply (@one_record_per_symbol_in_iterator_order Phone.platform Phone.camera
           Phone.frame_hello Phone.streaming 1 [Phone.hello] eq_refl).
  discriminate.
Defined.

Lemma redundant_lifecycle_calls_on_phone :
  @AndroidCamera.start Phone.platform
    (ZbarQrcodeDetector._camera Phone.streaming)
  = (Ok tt, ZbarQrcodeDetector._camera Phone.streaming) /\
  AndroidCamera.stop (ZbarQrcodeDetector._camera Phone.constructed)
  = (Ok tt, ZbarQrcodeDetector._camera Phone.constructed).
Proof.
  split.
  - exact (proj1
      (@redundant_lifecycle_calls_are_noops Phone.platform
         (ZbarQrcodeDetector._camera Phone.streaming) Phone.constructed)
      eq_refl).
  - exact (proj1 (proj2
      (@redundant_lifecycle_calls_are_noops Phone.platform
         (ZbarQrcodeDetector._camera Phone.constructed) Phone.constructed))
      eq_refl).
Defined.

(** * Further properties of the code *)

(** ** The lifecycle of the camera session *)

Section Lifecycle.
Context {P : Platform}.

Lemma start_closed_run (s : AndroidCamera.t) (p0 : Parameters.t) :
  AndroidCamera._android_camera s = None ->
  Camera_open (AndroidCamera.index s) = Some p0 ->
  Camera_accepts (Run.start_parameters p0) = true ->
  AndroidCamera.start s =
  (Ok tt,
   AndroidCamera.mk (AndroidCamera.index s)
     (Some (Camera.mk (Run.start_parameters p0) [] false))
     (Some SurfaceView_new) true (AndroidCamera._previewCallback s)
     (Some SurfaceView_new)
     (AndroidCamera.calls s
        ++ [Camera.open (AndroidCamera.index s);
            Camera.setParameters (Run.start_parameters p0);
            Camera.setDisplayOrientation 90])).
Proof.
  intros Hcam Hopen Hacc. destruct s as [i c sf cb pc hv log].
  simpl in Hcam, Hopen. subst c.
  unfold Run.start_parameters in *.
  unfold AndroidCamera.start. run_py. rewrite Hopen. run_py.
  unfold Camera.getParameters. cbn [Camera.parameters].
  rewrite Hacc. run_py. rewrite <- !app_assoc. reflexivity.
Qed.

Lemma start_unavailable_run (s : AndroidCamera.t) :
  AndroidCamera._android_camera s = None ->
  Camera_open (AndroidCamera.index s) = None ->
  AndroidCamera.start s =
  (Raised (JavaException "Fail to connect to camera service"),
   AndroidCamera.mk (AndroidCamera.index s) None
     (AndroidCamera._android_surface s) (AndroidCamera._android_surface_cb s)
     (AndroidCamera._previewCallback s) (AndroidCamera._holder_view s)
     (AndroidCamera.calls s ++ [Camera.open (AndroidCamera.index s)])).
Proof.
  intros Hcam Hopen. destruct s as [i c sf cb pc hv log].
  simpl in Hcam, Hopen. subst c.
  unfold AndroidCamera.start. run_py. rewrite Hopen. reflexivity.
Qed.

Lemma start_refused_run (s : AndroidCamera.t) (p0 : Parameters.t) :
  AndroidCamera._android_camera s = None ->
  Camera_open (AndroidCamera.index s) = Some p0 ->
  Camera_accepts (Run.start_parameters p0) = false ->
  AndroidCamera.start s =
  (Raised (JavaException "setParameters failed"),
   AndroidCamera.mk (AndroidCamera.index s)
     (Some (Camera.mk p0 [] false))
     (AndroidCamera._android_surface s) (AndroidCamera._android_surface_cb s)
     (AndroidCamera._previewCallback s) (AndroidCamera._holder_view s)
     (AndroidCamera.calls s
        ++ [Camera.open (AndroidCamera.index s);
            Camera.setParameters (Run.start_parameters p0)])).
Proof.
  intros Hcam Hopen Hacc. destruct s as [i c sf cb pc hv log].
  simpl in Hcam, Hopen. subst c.
  unfold Run.start_parameters in *.
  unfold AndroidCamera.start. run_py. rewrite Hopen. run_py.
  unfold Camera.getParameters. cbn [Camera.parameters].
  rewrite Hacc. run_py. rewrite <- !app_assoc. reflexivity.
Qed.

Lemma _on_surface_changed_refused (s : AndroidCamera.t) (cam : Camera.t)
    (fmt width height : Z) :
  AndroidCamera._android_camera s = Some cam ->
  Camera_accepts
    (AndroidCamera.surface_parameters (Camera.parameters cam) width height)
    = false ->
  AndroidCamera._on_surface_changed fmt width height s =
  (Raised (JavaException "setParameters failed"),
   AndroidCamera.mk (AndroidCamera.index s) (Some cam)
     (AndroidCamera._android_surface s) (AndroidCamera._android_surface_cb s)
     (AndroidCamera._previewCallback s) (AndroidCamera._holder_view s)
     (AndroidCamera.calls s
        ++ [Camera.setParameters
              (AndroidCamera.surface_parameters (Camera.parameters cam)
                 width height)])).
Proof.
  intros Hcam Hacc. destruct s as [i c sf cb pc hv log].
  simpl in Hcam. subst c.
  unfold AndroidCamera.surface_parameters in *.
  unfold AndroidCamera._on_surface_changed. run_py.
  unfold Camera.getParameters. rewrite Hacc. reflexivity.
Qed.

(** X1.  [start] on a closed session whose device opens and accepts the
    parameters holds the camera afterwards, set to continuous-picture focus,
    rotation 90 and portrait orientation with the preview size and format of
    the device left alone.  It creates the surface and hands it to the
    holder, but it does not start the preview and submits no buffer: the
    session streams only once the surface has reported. *)
Theorem start_opens_without_streaming (s : AndroidCamera.t)
    (p0 : Parameters.t) :
  AndroidCamera.is_open s = false ->
  Camera_open (AndroidCamera.index s) = Some p0 ->
  Camera_accepts (Run.start_parameters p0) = true ->
  let r := AndroidCamera.start s in
  let s' := state_of r in
  returned r = true /\
  AndroidCamera._android_camera s'
    = Some (Camera.mk (Run.start_parameters p0) [] false) /\
  Parameters.focusMode (Run.start_parameters p0)
    = "continuous-picture"%string /\
  Parameters.rotation (Run.start_parameters p0) = 90 /\
  In ("orientation"%string, "portrait"%string)
     (Parameters.settings (Run.start_parameters p0)) /\
  Parameters.getPreviewSize (Run.start_parameters p0)
    = Parameters.getPreviewSize p0 /\
  Parameters.getPreviewFormat (Run.start_parameters p0)
    = Parameters.getPreviewFormat p0 /\
  AndroidCamera._holder_view s' = AndroidCamera._android_surface s' /\
  AndroidCamera._android_surface s' <> None /\
  AndroidCamera.streaming s' = false /\
  AndroidCamera.started s' = AndroidCamera.started s /\
  AndroidCamera.submitted s' = AndroidCamera.submitted s /\
  AndroidCamera.calls s'
    = AndroidCamera.calls s
      ++ [Camera.open (AndroidCamera.index s);
          Camera.setParameters (Run.start_parameters p0);
          Camera.setDisplayOrientation 90].
Proof.
  intros Hclosed Hopen Hacc r s'. subst s' r.
  unfold AndroidCamera.is_open in Hclosed.
  destruct (AndroidCamera._android_camera s) eqn:Hcam; [discriminate | ].
  rewrite (start_closed_run s p0 Hcam Hopen Hacc).
  unfold returned, state_of, AndroidCamera.streaming, AndroidCamera.started,
    AndroidCamera.submitted.
  cbn [fst snd AndroidCamera.calls AndroidCamera._android_camera
       AndroidCamera._holder_view AndroidCamera._android_surface
       Camera.previewing].
  rewrite !filter_app, !length_app. simpl.
  repeat split; try lia; try discriminate. left. reflexivity.
Qed.

(** X2.  When the device cannot be opened [start] raises and the session
    stays closed; nothing but the attempt is recorded, and a later [start]
    tries the device again. *)
Theorem start_on_unavailable_device_stays_closed (s : AndroidCamera.t) :
  AndroidCamera.is_open s = false ->
  Camera_open (AndroidCamera.index s) = None ->
  let r := AndroidCamera.start s in
  let r2 := AndroidCamera.start (state_of r) in
  returned r = false /\
  AndroidCamera.is_open (state_of r) = false /\
  AndroidCamera._android_surface (state_of r)
    = AndroidCamera._android_surface s /\
  AndroidCamera._holder_view (state_of r) = AndroidCamera._holder_view s /\
  AndroidCamera.calls (state_of r)
    = AndroidCamera.calls s ++ [Camera.open (AndroidCamera.index s)] /\
  AndroidCamera.calls (state_of r2)
    = AndroidCamera.calls s
      ++ [Camera.open (AndroidCamera.index s);
          Camera.open (AndroidCamera.index s)].
Proof.
  intros Hclosed Hopen r r2. subst r2 r.
  unfold AndroidCamera.is_open in Hclosed.
  destruct (AndroidCamera._android_camera s) eqn:Hcam; [discriminate | ].
  rewrite (start_unavailable_run s Hcam Hopen).
  unfold returned, state_of. cbn [fst snd].
  rewrite start_unavailable_run by (first [reflexivity | exact Hopen]).
  cbn [snd AndroidCamera.calls AndroidCamera._android_camera
       AndroidCamera._android_surface AndroidCamera._holder_view
       AndroidCamera.index].
  rewrite <- app_assoc. repeat split.
Qed.

(** X3.  When the device opens but refuses the parameters, [start] raises
    with the camera already held: the session counts as open although no
    surface exists.  A second [start] therefore does nothing at all, and only
    [stop] gives the camera back. *)
Theorem start_refused_leaves_camera_held (s : AndroidCamera.t)
    (p0 : Parameters.t) :
  AndroidCamera.is_open s = false ->
  Camera_open (AndroidCamera.index s) = Some p0 ->
  Camera_accepts (Run.start_parameters p0) = false ->
  let r := AndroidCamera.start s in
  let s' := state_of r in
  returned r = false /\
  AndroidCamera._android_camera s' = Some (Camera.mk p0 [] false) /\
  AndroidCamera._android_surface s' = AndroidCamera._android_surface s /\
  AndroidCamera._holder_view s' = AndroidCamera._holder_view s /\
  AndroidCamera.start s' = (Ok tt, s') /\
  AndroidCamera.calls (state_of (AndroidCamera.stop s'))
    = AndroidCamera.calls s
      ++ [Camera.open (AndroidCamera.index s);
          Camera.setParameters (Run.start_parameters p0);
          Camera.setPreviewCallback_None;
          Camera.release] /\
  AndroidCamera.is_open (state_of (AndroidCamera.stop s')) = false.
Proof.
  intros Hclosed Hopen Hacc r s'. subst s' r.
  unfold AndroidCamera.is_open in Hclosed.
  destruct (AndroidCamera._android_camera s) eqn:Hcam; [discriminate | ].
  rewrite (start_refused_run s p0 Hcam Hopen Hacc).
  unfold returned, state_of. cbn [fst snd].
  split; [reflexivity | ]. split; [reflexivity | ].
  split; [reflexivity | ]. split; [reflexivity | ].
  split; [apply (start_open _ (Camera.mk p0 [] false)); reflexivity | ].
  rewrite (stop_open _ (Camera.mk p0 [] false)) by reflexivity.
  cbn [snd AndroidCamera.calls AndroidCamera._android_camera].
  rewrite <- app_assoc. split; reflexivity.
Qed.

(** X4.  Restarting forgets the stream.  [stop] on a session that holds a
    camera removes the preview callback, then releases the camera and takes
    the view from the holder; a [start] after it, on a device that opens and
    accepts the parameters, holds a fresh camera with an empty buffer queue
    and no preview running, whatever the session was doing before. *)
Theorem restart_forgets_the_stream (s : AndroidCamera.t) (p0 : Parameters.t) :
  AndroidCamera.is_open s = true ->
  Camera_open (AndroidCamera.index s) = Some p0 ->
  Camera_accepts (Run.start_parameters p0) = true ->
  let stopped := state_of (AndroidCamera.stop s) in
  let r := AndroidCamera.start stopped in
  AndroidCamera.is_open stopped = false /\
  AndroidCamera._holder_view stopped = None /\
  returned r = true /\
  AndroidCamera.is_open (state_of r) = true /\
  AndroidCamera.streaming (state_of r) = false /\
  AndroidCamera.queue (state_of r) = [] /\
  AndroidCamera.calls (state_of r)
    = AndroidCamera.calls s
      ++ [Camera.setPreviewCallback_None;
          Camera.release;
          Camera.open (AndroidCamera.index s);
          Camera.setParameters (Run.start_parameters p0);
          Camera.setDisplayOrientation 90].
Proof.
  intros Hopened Hopen Hacc stopped r. subst r stopped.
  unfold AndroidCamera.is_open in Hopened |- *.
  destruct (AndroidCamera._android_camera s) as [cam |] eqn:Hcam;
    [ | discriminate].
  rewrite (stop_open s cam Hcam). unfold state_of. cbn [snd].
  rewrite start_closed_run with (p0 := p0)
    by (first [reflexivity | exact Hopen | exact Hacc]).
  unfold returned, state_of, AndroidCamera.streaming, AndroidCamera.queue.
  cbn [fst snd AndroidCamera.calls AndroidCamera._android_camera
       AndroidCamera._holder_view AndroidCamera.index Camera.previewing
       Camera.buffers].
  rewrite <- app_assoc. repeat split.
Qed.

(** X5.  A surface notification that arrives once [stop] has run finds no
    camera: it raises AttributeError before any call is made and leaves the
    stopped session as it is. *)
Theorem surface_change_after_stop_raises (s : AndroidCamera.t)
    (surface : SurfaceView) (fmt width height : Z) :
  AndroidCamera.surface_changed surface fmt width height
    (state_of (AndroidCamera.stop s))
  = (Raised AttributeError, state_of (AndroidCamera.stop s)).
Proof.
  unfold AndroidCamera.surface_changed, SurfaceHolderCallback.surfaceChanged.
  apply _on_surface_changed_closed.
  destruct (AndroidCamera._android_camera s) as [cam |] eqn:Hcam.
  - rewrite (stop_open s cam Hcam). reflexivity.
  - rewrite (stop_closed s Hcam). exact Hcam.
Qed.

(** X6.  When the device refuses the preview size computed from the surface
    (the FIXME of [_on_surface_changed]), the notification raises right
    there: the refused parameters are the only call made, the camera keeps
    the parameters it had, no buffer is submitted and the preview is not
    started. *)
Theorem refused_preview_size_stops_the_sequence (s : AndroidCamera.t)
    (cam : Camera.t) (fmt width height : Z) :
  AndroidCamera._android_camera s = Some cam ->
  Camera_accepts
    (AndroidCamera.surface_parameters (Camera.parameters cam) width height)
    = false ->
  let r := AndroidCamera._on_surface_changed fmt width height s in
  returned r = false /\
  AndroidCamera._android_camera (state_of r) = Some cam /\
  AndroidCamera.submitted (state_of r) = AndroidCamera.submitted s /\
  AndroidCamera.started (state_of r) = AndroidCamera.started s /\
  AndroidCamera.queue (state_of r) = AndroidCamera.queue s /\
  AndroidCamera._previewCallback (state_of r)
    = AndroidCamera._previewCallback s /\
  AndroidCamera.calls (state_of r)
    = AndroidCamera.calls s
      ++ [Camera.setParameters
            (AndroidCamera.surface_parameters (Camera.parameters cam)
               width height)].
Proof.
  intros Hcam Hacc r. subst r.
  rewrite (_on_surface_changed_refused s cam fmt width height Hcam Hacc).
  unfold returned, state_of, AndroidCamera.submitted, AndroidCamera.started,
    AndroidCamera.queue.
  cbn [fst snd AndroidCamera.calls AndroidCamera._android_camera
       AndroidCamera._previewCallback].
  rewrite Hcam, !filter_app, !length_app. simpl.
  repeat split; lia.
Qed.

End Lifecycle.

(** ** The frame buffer beyond the exact case *)

Lemma Float_rne_sign (m k : Z) :
  0 < k ->
  (m <= 0 -> Float.rne m k <= 0) /\ (0 <= m -> 0 <= Float.rne m k).
Proof.
  intros Hk. unfold Float.rne.
  assert (Hp : 0 < 2 ^ k) by (apply Z.pow_pos_nonneg; lia).
  assert (Hh : 0 < 2 ^ (k - 1)) by (apply Z.pow_pos_nonneg; lia).
  pose proof (Z.div_mod m (2 ^ k) ltac:(lia)) as Hdm.
  pose proof (Z.mod_pos_bound m (2 ^ k) Hp) as Hr.
  split; intros Hm;
    destruct (Z.ltb_spec (m mod 2 ^ k) (2 ^ (k - 1)));
    try destruct (Z.ltb_spec (2 ^ (k - 1)) (m mod 2 ^ k));
    try destruct (Z.even (m / 2 ^ k)); nia.
Qed.

Lemma Float_round_sign (m e : Z) :
  (m <= 0 -> Float.mant (Float.round m e) <= 0) /\
  (0 <= m -> 0 <= Float.mant (Float.round m e)).
Proof.
  unfold Float.round.
  destruct (Z.leb_spec (Float.excess m) 0) as [_ | Hk]; simpl.
  - split; trivial.
  - apply Float_rne_sign. exact Hk.
Qed.

Lemma Float_to_int_nonpos (x : Float.float) :
  Float.mant x <= 0 -> Float.to_int x <= 0.
Proof.
  intros Hm. unfold Float.to_int.
  destruct (Z.leb_spec 0 (Float.expo x)) as [He | He].
  - assert (0 < 2 ^ Float.expo x) by (apply Z.pow_pos_nonneg; lia). nia.
  - assert (Hp : 0 < 2 ^ (- Float.expo x)) by (apply Z.pow_pos_nonneg; lia).
    rewrite <- (Z.quot_0_l (2 ^ (- Float.expo x))) by lia.
    apply Z.quot_le_mono; assumption.
Qed.

(** X7.  For a preview format without a pixel depth ([getBitsPerPixel]
    returns -1, or 0) the byte count computed is not positive and the string
    multiplication gives the empty string: both buffers submitted to the
    camera are empty, whatever the size of the surface. *)
Theorem frame_buffer_empty_without_depth (b width height : Z) :
  b <= 0 -> 0 <= width -> 0 <= height ->
  AndroidCamera.frame_buffer b width height = [].
Proof.
  intros Hb Hw Hh. unfold AndroidCamera.frame_buffer, str_mul.
  assert (Hn : Float.to_int
                 (Float.mul (Float.of_int (width * height))
                            (Float.div8 (Float.of_int b))) <= 0).
  { apply Float_to_int_nonpos. unfold Float.mul. apply Float_round_sign.
    pose proof (proj2 (Float_round_sign (width * height) 0)) as H1.
    pose proof (proj1 (Float_round_sign b 0) Hb) as H2.
    unfold Float.of_int, Float.div8. cbn [Float.mant].
    assert (0 <= width * height) by nia. specialize (H1 ltac:(assumption)).
    nia. }
  destruct (Float.to_int _) as [| n | n]; try reflexivity. lia.
Qed.

(** X8.  The buffer holds the whole bytes of the frame and no more: with
    [n] its length, [8 n <= width * height * b < 8 n + 8].  It covers every
    bit of the frame exactly when the bit count is a multiple of 8; otherwise
    the last, partial byte is missing. *)
Theorem frame_buffer_drops_the_partial_byte (b width height : Z) :
  0 <= b -> 0 <= width -> 0 <= height -> width * height * b < 2 ^ 53 ->
  let n := Z.of_nat (List.length (AndroidCamera.frame_buffer b width height)) in
  8 * n <= width * height * b < 8 * n + 8 /\
  (8 * n = width * height * b <-> (width * height * b) mod 8 = 0).
Proof.
  intros Hb Hw Hh Hlt n. subst n.
  rewrite (frame_buffer_length b width height Hb Hw Hh Hlt).
  pose proof (Z.div_mod (width * height * b) 8 ltac:(lia)) as Hdm.
  pose proof (Z.mod_pos_bound (width * height * b) 8 ltac:(lia)) as Hr.
  repeat split; lia.
Qed.

(** ** Frames in a running and in a stopped session *)

Section FrameRuns.
Context {P : Platform}.

(** X9.  A detection pass does nothing but publish: whichever way it ends,
    it leaves the camera widget (and so the log of camera calls and the
    buffer queue), the scanner and the other properties of the detector as
    they were; when it raises, the published list is untouched too. *)
Theorem detection_pass_only_publishes (camera : Camera.ref) (data : bytes)
    (d : ZbarQrcodeDetector.t) :
  let r := ZbarQrcodeDetector._detect_qrcode_frame camera data d in
  ZbarQrcodeDetector._camera (state_of r) = ZbarQrcodeDetector._camera d /\
  ZbarQrcodeDetector._scanner (state_of r) = ZbarQrcodeDetector._scanner d /\
  ZbarQrcodeDetector.camera_size (state_of r)
    = ZbarQrcodeDetector.camera_size d /\
  ZbarQrcodeDetector.show_bounds (state_of r)
    = ZbarQrcodeDetector.show_bounds d /\
  (returned r = false -> state_of r = d).
Proof.
  intros r. subst r.
  destruct camera as [cam |]; [ | rewrite detect_released; repeat split].
  destruct (ZbarQrcodeDetector.decoded cam data d)
    as [[result found] |] eqn:E.
  - destruct (Z.eq_dec result 0) as [-> | Hnz].
    + rewrite (detect_nothing _ _ _ _ E). repeat split.
    + rewrite (detect_something _ _ _ _ _ E Hnz). repeat split.
      discriminate.
  - rewrite (detect_unconverted _ _ _ E). repeat split.
Qed.

(** X10.  A callback that arrives with a released camera is dropped with
    an exception.  The handler raises at [getParameters], its first
    statement, so nothing is published and the callback ends before the
    resubmission: the detector is left exactly as it was.  After [stop] in
    particular, such a late frame leaves the cleared list empty and the
    session closed. *)
Theorem frame_on_released_camera_changes_nothing (data : bytes)
    (d : ZbarQrcodeDetector.t) :
  ZbarQrcodeDetector._on_preview_frame Camera.Released data d
    = (Raised (JavaException "Method called after release()"), d) /\
  let stopped := state_of (ZbarQrcodeDetector.stop d) in
  let r := ZbarQrcodeDetector._on_preview_frame Camera.Released data stopped in
  returned r = false /\
  ZbarQrcodeDetector.symbols (state_of r) = [] /\
  AndroidCamera.is_open (ZbarQrcodeDetector._camera (state_of r)) = false /\
  AndroidCamera.calls (ZbarQrcodeDetector._camera (state_of r))
    = AndroidCamera.calls (ZbarQrcodeDetector._camera stopped).
Proof.
  assert (Hdrop : forall d0 : ZbarQrcodeDetector.t,
             ZbarQrcodeDetector._on_preview_frame Camera.Released data d0
             = (Raised (JavaException "Method called after release()"), d0)).
  { intros d0. unfold ZbarQrcodeDetector._on_preview_frame.
    apply frame_callback_raised. apply detect_released. }
  split; [apply Hdrop | ].
  intros stopped r. subst r. rewrite (Hdrop stopped). subst stopped.
  rewrite (detector_stop_run d).
  unfold returned, state_of, AndroidCamera.is_open.
  cbn [fst snd ZbarQrcodeDetector.symbols ZbarQrcodeDetector._camera].
  split; [reflexivity | split; [reflexivity | split; [ | reflexivity] ] ].
  destruct (AndroidCamera._android_camera (ZbarQrcodeDetector._camera d))
    as [cam |] eqn:Hcam.
  - rewrite (stop_open _ cam Hcam). reflexivity.
  - rewrite (stop_closed _ Hcam). cbn [snd]. rewrite Hcam. reflexivity.
Qed.

Lemma nv21_image_parameters (p : Parameters.t) (q : list bytes)
    (previewing : bool) (data : bytes) :
  ZbarQrcodeDetector.nv21_image (Camera.mk p q previewing) data
  = ZbarQrcodeDetector.nv21_image (Camera.mk p [] true) data.
Proof. reflexivity. Qed.

(** One delivery in a streaming session, for a frame zbar converts. *)
Lemma deliver_convertible (frame : bytes) (d : ZbarQrcodeDetector.t)
    (p : Parameters.t) (b : bytes) (q : list bytes) :
  AndroidCamera._android_camera (ZbarQrcodeDetector._camera d)
    = Some (Camera.mk p (b :: q) true) ->
  Run.convertible p frame = true ->
  let d' := state_of (ZbarQrcodeDetector.deliver frame d) in
  ZbarQrcodeDetector.symbols d'
    = Run.publish p (ZbarQrcodeDetector._scanner d)
        (ZbarQrcodeDetector.symbols d) frame /\
  ZbarQrcodeDetector._scanner d' = ZbarQrcodeDetector._scanner d /\
  AndroidCamera._android_camera (ZbarQrcodeDetector._camera d')
    = Some (Camera.mk p (q ++ [frame]) true) /\
  AndroidCamera.calls (ZbarQrcodeDetector._camera d')
    = AndroidCamera.calls (ZbarQrcodeDetector._camera d)
      ++ [Camera.addCallbackBuffer frame].
Proof.
  intros Hcam Hconv d'. subst d'.
  unfold ZbarQrcodeDetector.deliver.
  rewrite (deliver_frame_streaming _ frame d p b q Hcam).
  destruct (taken_queue p q d) as [Htaken Hcalls].
  set (d0 := ZbarQrcodeDetector.taken p q d) in *.
  assert (Hsym : ZbarQrcodeDetector.symbols d0 = ZbarQrcodeDetector.symbols d)
    by (destruct d; reflexivity).
  assert (Hsc : ZbarQrcodeDetector._scanner d0 = ZbarQrcodeDetector._scanner d)
    by (destruct d; reflexivity).
  unfold Run.convertible in Hconv. unfold Run.publish.
  destruct (ZbarQrcodeDetector.decoded (Camera.mk p q true) frame d0)
    as [[result found] |] eqn:Hdec.
  2:{ unfold ZbarQrcodeDetector.decoded in Hdec.
      rewrite nv21_image_parameters in Hdec.
      destruct (Image_convert _ _); discriminate. }
  assert (Hscan :
    match Image_convert
            (ZbarQrcodeDetector.nv21_image (Camera.mk p [] true) frame) "Y800"
    with
    | Some img =>
        ImageScanner_scanImage (ZbarQrcodeDetector._scanner d) img
        = (result, found)
    | None => False
    end).
  { unfold ZbarQrcodeDetector.decoded in Hdec.
    rewrite nv21_image_parameters, Hsc in Hdec.
    destruct (Image_convert _ _); [ | discriminate].
    simpl in Hdec. congruence. }
  destruct (Image_convert _ _) as [img |]; [ | contradiction].
  rewrite Hscan.
  destruct (Z.eq_dec result 0) as [-> | Hnz].
  - pose proof (detect_nothing _ _ _ _ Hdec) as Hrun.
    rewrite (frame_callback_returned _ _ _ _ _ _ Hrun Htaken).
    unfold state_of, AndroidCamera.resubmitted.
    cbn [snd ZbarQrcodeDetector.set_camera ZbarQrcodeDetector.symbols
         ZbarQrcodeDetector._scanner ZbarQrcodeDetector._camera
         AndroidCamera._android_camera AndroidCamera.calls
         Camera.parameters Camera.buffers Camera.previewing].
    rewrite Hsym, Hsc, Hcalls. repeat split.
  - pose proof (detect_something _ _ _ _ _ Hdec Hnz) as Hrun.
    assert (Htaken' :
      AndroidCamera._android_camera
        (ZbarQrcodeDetector._camera
           (ZbarQrcodeDetector.mk (ZbarQrcodeDetector.camera_size d0)
              (map ZbarQrcodeDetector.qrcode_of found)
              (ZbarQrcodeDetector.show_bounds d0)
              (ZbarQrcodeDetector._camera d0)
              (ZbarQrcodeDetector._scanner d0)))
      = Some (Camera.mk p q true)) by exact Htaken.
    rewrite (frame_callback_returned _ _ _ _ _ _ Hrun Htaken').
    unfold state_of, AndroidCamera.resubmitted.
    cbn [snd ZbarQrcodeDetector.set_camera ZbarQrcodeDetector.symbols
         ZbarQrcodeDetector._scanner ZbarQrcodeDetector._camera
         AndroidCamera._android_camera AndroidCamera.calls
         Camera.parameters Camera.buffers Camera.previewing].
    rewrite Hsc, Hcalls.
    destruct (Z.eqb_spec result 0); [contradiction | ]. repeat split.
Qed.

(** X11.  The steady state of the pipeline.  In a streaming session with a
    buffer in the queue, any run of frames that zbar converts is handled
    frame by frame: the list published at the end is that of the last frame
    whose scan returned nonzero (the list published before the run when
    there is none), every frame's buffer has been resubmitted, and the queue
    is as long as it was. *)
Theorem frames_keep_the_pool_and_publish_the_last_detection
    (frames : list bytes) (d : ZbarQrcodeDetector.t) (p : Parameters.t)
    (b : bytes) (q : list bytes) :
  AndroidCamera._android_camera (ZbarQrcodeDetector._camera d)
    = Some (Camera.mk p (b :: q) true) ->
  forallb (Run.convertible p) frames = true ->
  let d' := ZbarQrcodeDetector.deliver_all frames d in
  ZbarQrcodeDetector.symbols d'
    = fold_left (Run.publish p (ZbarQrcodeDetector._scanner d)) frames
        (ZbarQrcodeDetector.symbols d) /\
  List.length (AndroidCamera.queue (ZbarQrcodeDetector._camera d'))
    = List.length (b :: q) /\
  AndroidCamera.streaming (ZbarQrcodeDetector._camera d') = true /\
  AndroidCamera.calls (ZbarQrcodeDetector._camera d')
    = AndroidCamera.calls (ZbarQrcodeDetector._camera d)
      ++ map Camera.addCallbackBuffer frames.
Proof.
  revert d b q.
  induction frames as [| frame frames IH]; intros d b q Hcam Hconv d'.
  - subst d'. cbn. unfold AndroidCamera.queue, AndroidCamera.streaming.
    rewrite Hcam, app_nil_r. repeat split.
  - subst d'. cbn [forallb] in Hconv.
    apply andb_prop in Hconv. destruct Hconv as [Hframe Hrest].
    destruct (deliver_convertible frame d p b q Hcam Hframe)
      as (Hsym & Hsc & Hcam1 & Hcalls).
    unfold ZbarQrcodeDetector.deliver_all, ZbarQrcodeDetector.deliver_frames,
      AndroidCamera.deliver_all.
    cbn [fold_left map].
    change (AndroidCamera.deliver ZbarQrcodeDetector._camera
              ZbarQrcodeDetector.set_camera
              ZbarQrcodeDetector._detect_qrcode_frame frame d)
      with (ZbarQrcodeDetector.deliver frame d).
    set (d1 := state_of (ZbarQrcodeDetector.deliver frame d)) in *.
    destruct (q ++ [frame]) as [| b1 q1] eqn:Hq.
    { destruct q; discriminate. }
    specialize (IH d1 b1 q1 Hcam1 Hrest). cbv zeta in IH.
    unfold ZbarQrcodeDetector.deliver_all, ZbarQrcodeDetector.deliver_frames,
      AndroidCamera.deliver_all in IH.
    destruct IH as (IHsym & IHlen & IHstr & IHcalls).
    rewrite IHsym, IHlen, IHstr, IHcalls, Hsym, Hsc, Hcalls, <- app_assoc.
    repeat split.
    rewrite <- Hq, length_app. simpl. lia.
Qed.

End FrameRuns.

(** ** The lost buffer over the rest of the session *)

Section LostBuffer.
Context {P : Platform}.




End LostBuffer.

(** ** The holder of the overlay view *)

Section HolderProperties.
Variable num : Type.
Variable sub : num -> num -> num.
Variable View : Type.
Variable View_eq_dec : forall a b : View, {a = b} + {a <> b}.

Local Abbreviation holder := (AndroidWidgetHolder.t num View).
Local Abbreviation on_view := (AndroidWidgetHolder.on_view sub View_eq_dec).
Local Abbreviation assign_view :=
  (AndroidWidgetHolder.assign_view sub View_eq_dec).
Local Abbreviation assign_views :=
  (AndroidWidgetHolder.assign_views sub View_eq_dec).
Local Abbreviation consistent := (@AndroidWidgetHolder.consistent num View).

Ltac run_holder :=
  cbv beta iota delta
    [bind ret raise get gets modify state_of returned
     AndroidWidgetHolder.on_view AndroidWidgetHolder.on_size
     AndroidWidgetHolder.on_x AndroidWidgetHolder.on_y
     AndroidWidgetHolder.assign_view
     AndroidWidgetHolder.parent_removeView
     AndroidWidgetHolder.context_addContentView
     AndroidWidgetHolder.set_view AndroidWidgetHolder.set_old_view
     AndroidWidgetHolder.set_content AndroidWidgetHolder.log
     AndroidWidgetHolder.attached AndroidWidgetHolder.flipped_y];
  cbn [fst snd
       AndroidWidgetHolder.x AndroidWidgetHolder.y AndroidWidgetHolder.width
       AndroidWidgetHolder.height AndroidWidgetHolder.view
       AndroidWidgetHolder._old_view AndroidWidgetHolder._window_height
       AndroidWidgetHolder.content AndroidWidgetHolder.calls].

Lemma last_cons_default {A : Type} (vs : list A) (v d : A) :
  last (v :: vs) d = last vs v.
Proof.
  revert v d. induction vs as [| w vs IH]; intros v d; [reflexivity | ].
  change (last (v :: w :: vs) d) with (last (w :: vs) d).
  rewrite (IH w d), (IH w v). reflexivity.
Qed.

Lemma remove_last_view (others : list View) (v : View) :
  ~ In v others -> remove View_eq_dec v (others ++ [v]) = others.
Proof.
  intros Hv. rewrite remove_app, (notin_remove View_eq_dec others v Hv).
  cbn. destruct (View_eq_dec v v); [apply app_nil_r | contradiction].
Qed.

(** [on_view] on a consistent holder whose [view] property already holds the
    new value, as Kivy calls it. *)
Lemma on_view_run (others : list View) (s : holder) (old new : option View) :
  AndroidWidgetHolder.content s = others ++ AndroidWidgetHolder.shown old ->
  AndroidWidgetHolder._old_view s = old ->
  match old with Some v => ~ In v others | None => True end ->
  match new with Some v => ~ In v others | None => True end ->
  on_view new s =
  (Ok tt,
   AndroidWidgetHolder.mk
     (AndroidWidgetHolder.x s) (AndroidWidgetHolder.y s)
     (AndroidWidgetHolder.width s) (AndroidWidgetHolder.height s)
     (AndroidWidgetHolder.view s) new
     (AndroidWidgetHolder._window_height s)
     (others ++ AndroidWidgetHolder.shown new)
     (AndroidWidgetHolder.calls s
        ++ match old with
           | Some o => [AndroidWidgetHolder.removeView o]
           | None => []
           end
        ++ match new with
           | Some v =>
               [AndroidWidgetHolder.addContentView v
                  (AndroidWidgetHolder.width s) (AndroidWidgetHolder.height s);
                AndroidWidgetHolder.setZOrderOnTop v true;
                AndroidWidgetHolder.setX v (AndroidWidgetHolder.x s);
                AndroidWidgetHolder.setY v
                  (sub (sub (AndroidWidgetHolder._window_height s)
                            (AndroidWidgetHolder.y s))
                       (AndroidWidgetHolder.height s))]
           | None => []
           end)).
Proof.
  intros Hcontent Hold Hfresh Hnew.
  destruct s as [x y w h vw ov wh ct log]. cbn in Hcontent, Hold. subst ov ct.
  destruct old as [o |]; destruct new as [v |]; run_holder;
    cbn [AndroidWidgetHolder.shown] in *.
  - destruct (in_dec View_eq_dec o (others ++ [o])) as [_ | Hn];
      [ | exfalso; apply Hn, in_or_app; right; left; reflexivity].
    run_holder. rewrite (remove_last_view others o Hfresh).
    destruct (in_dec View_eq_dec v others) as [Hin | _]; [contradiction | ].
    run_holder. rewrite <- !app_assoc. reflexivity.
  - destruct (in_dec View_eq_dec o (others ++ [o])) as [_ | Hn];
      [ | exfalso; apply Hn, in_or_app; right; left; reflexivity].
    run_holder. rewrite (remove_last_view others o Hfresh).
    rewrite !app_nil_r. reflexivity.
  - rewrite app_nil_r.
    destruct (in_dec View_eq_dec v others) as [Hin | _]; [contradiction | ].
    run_holder. rewrite <- !app_assoc. reflexivity.
  - rewrite !app_nil_r. reflexivity.
Qed.

Lemma assign_view_consistent (others : list View) (s : holder)
    (v : option View) :
  consistent others s ->
  match v with Some a => ~ In a others | None => True end ->
  exists s' : holder,
    assign_view v s = (Ok tt, s') /\
    AndroidWidgetHolder.view s' = v /\
    consistent others s'.
Proof.
  intros (Hcontent & Hold & Hfresh) Hv.
  assert (Hsame : v = AndroidWidgetHolder.view s ->
                  exists s' : holder,
                    (Ok tt, s) = (Ok tt, s') /\
                    AndroidWidgetHolder.view s' = v /\ consistent others s').
  { intros ->. exists s. repeat split; assumption. }
  assert (Hnew :
    exists s' : holder,
      on_view v (state_of (AndroidWidgetHolder.set_view v s)) = (Ok tt, s') /\
      AndroidWidgetHolder.view s' = v /\ consistent others s').
  { eexists. split.
    - apply on_view_run with (others := others)
                             (old := AndroidWidgetHolder.view s).
      + destruct s; exact Hcontent.
      + destruct s; exact Hold.
      + exact Hfresh.
      + exact Hv.
    - destruct s. split; [reflexivity | ].
      split; [reflexivity | split; [reflexivity | exact Hv] ]. }
  unfold AndroidWidgetHolder.assign_view.
  cbv beta iota delta [bind get]. cbn [fst snd].
  destruct v as [a |]; destruct (AndroidWidgetHolder.view s) as [b |] eqn:Hb.
  - destruct (View_eq_dec a b) as [-> | Hne].
    + apply Hsame. reflexivity.
    + exact Hnew.
  - exact Hnew.
  - exact Hnew.
  - apply Hsame. reflexivity.
Qed.

(** X13.  The holder shows the view last assigned, and only that one.
    From a consistent holder, any run of assignments to [view] (views that
    are not among the activity's own, or [None]) returns without an
    exception; afterwards the content of the activity is its own views
    followed by the view assigned last, if that is a view, and the holder is
    consistent again: no earlier view stays attached and none is attached
    twice. *)
Theorem holder_shows_the_last_view (others : list View)
    (vs : list (option View)) (s : holder) :
  consistent others s ->
  (forall v : View, In (Some v) vs -> ~ In v others) ->
  exists s' : holder,
    assign_views vs s = (Ok tt, s') /\
    AndroidWidgetHolder.view s' = last vs (AndroidWidgetHolder.view s) /\
    AndroidWidgetHolder.content s'
      = others ++ AndroidWidgetHolder.shown
                    (last vs (AndroidWidgetHolder.view s)) /\
    consistent others s'.
Proof.
  revert s. induction vs as [| v vs IH]; intros s Hs Hvs.
  - exists s. split; [reflexivity | ]. split; [reflexivity | ].
    split; [apply Hs | exact Hs].
  - destruct (assign_view_consistent others s v Hs)
      as (s1 & Hrun & Hview & Hs1).
    { destruct v as [a |]; [ | exact I]. apply Hvs. left. reflexivity. }
    destruct (IH s1 Hs1) as (s' & Hrun' & Hview' & Hcontent' & Hs').
    { intros a Ha. apply Hvs. right. exact Ha. }
    exists s'. cbn [AndroidWidgetHolder.assign_views].
    unfold bind at 1. rewrite Hrun, Hrun'.
    assert (Hlast : last (v :: vs) (AndroidWidgetHolder.view s)
                    = last vs (AndroidWidgetHolder.view s1))
      by (rewrite Hview; apply last_cons_default).
    rewrite Hlast.
    split; [reflexivity | ].
    split; [exact Hview' | split; [exact Hcontent' | exact Hs'] ].
Qed.

(** X14.  Where the overlay is put.  [on_view] with a view, on a consistent
    holder, first removes the view attached before (when there is one), then
    attaches the new view with the size of the widget, puts it on top, at the
    widget's [x] and at [window height - y - height]: the vertical axis of
    Kivy, which grows upwards, is flipped into that of Android. *)
Theorem overlay_is_placed_with_flipped_y (others : list View) (s : holder)
    (v : View) :
  AndroidWidgetHolder.content s
    = others ++ AndroidWidgetHolder.shown (AndroidWidgetHolder._old_view s) ->
  match AndroidWidgetHolder._old_view s with
  | Some o => ~ In o others
  | None => True
  end ->
  ~ In v others ->
  let r := on_view (Some v) s in
  returned r = true /\
  AndroidWidgetHolder._old_view (state_of r) = Some v /\
  AndroidWidgetHolder.content (state_of r) = others ++ [v] /\
  AndroidWidgetHolder.calls (state_of r)
    = AndroidWidgetHolder.calls s
      ++ match AndroidWidgetHolder._old_view s with
         | Some o => [AndroidWidgetHolder.removeView o]
         | None => []
         end
      ++ [AndroidWidgetHolder.addContentView v
            (AndroidWidgetHolder.width s) (AndroidWidgetHolder.height s);
          AndroidWidgetHolder.setZOrderOnTop v true;
          AndroidWidgetHolder.setX v (AndroidWidgetHolder.x s);
          AndroidWidgetHolder.setY v
            (sub (sub (AndroidWidgetHolder._window_height s)
                      (AndroidWidgetHolder.y s))
                 (AndroidWidgetHolder.height s))].
Proof.
  intros Hcontent Hfresh Hv r. subst r.
  rewrite (on_view_run others s (AndroidWidgetHolder._old_view s) (Some v)
             Hcontent eq_refl Hfresh Hv).
  repeat split.
Qed.

(** X15.  Detaching needs the view to be attached.  [on_view] on a holder
    whose [_old_view] is no longer in the content of the activity finds no
    parent and raises AttributeError before anything is removed or added;
    the new view is not attached and [_old_view] stays. *)
Theorem on_view_raises_when_old_view_is_detached (s : holder)
    (o : View) (new : option View) :
  AndroidWidgetHolder._old_view s = Some o ->
  ~ In o (AndroidWidgetHolder.content s) ->
  on_view new s = (Raised AttributeError, s).
Proof.
  intros Hold Hout. destruct s as [x y w h vw ov wh ct log].
  cbn in Hold, Hout. subst ov. run_holder.
  destruct (in_dec View_eq_dec o ct) as [Hin | _]; [contradiction | ].
  reflexivity.
Qed.


End HolderProperties.

(** ** The further properties on concrete devices *)

Lemma start_on_phone :
  AndroidCamera.streaming
    (state_of (@AndroidCamera.start Phone.platform Devices.camera0)) = false /\
  AndroidCamera.calls
    (state_of (@AndroidCamera.start Phone.platform Devices.camera0))
  = [Camera.open 0;
     Camera.setParameters (Run.start_parameters Phone.parameters0);
     Camera.setDisplayOrientation 90].
Proof.
  destruct (@start_opens_without_streaming Phone.platform Devices.camera0
              Phone.parameters0 eq_refl eq_refl eq_refl)
    as (_ & _ & _ & _ & _ & _ & _ & _ & _ & Hstr & _ & _ & Hcalls).
  split; [exact Hstr | exact Hcalls].
Defined.

Lemma start_without_camera_1 :
  AndroidCamera.is_open
    (state_of (@AndroidCamera.start Phone.platform Devices.camera1)) = false.
Proof.
  apply (@start_on_unavailable_device_stays_closed Phone.platform
           Devices.camera1 eq_refl eq_refl).
Defined.

Lemma start_on_fixed_focus :
  @AndroidCamera.start Devices.fixed_focus
    (state_of (@AndroidCamera.start Devices.fixed_focus Devices.camera0))
  = (Ok tt,
     state_of (@AndroidCamera.start Devices.fixed_focus Devices.camera0)).
Proof.
  apply (@start_refused_leaves_camera_held Devices.fixed_focus
           Devices.camera0 Phone.parameters0 eq_refl eq_refl eq_refl).
Defined.

Lemma restart_on_phone :
  AndroidCamera.streaming (ZbarQrcodeDetector._camera Phone.streaming) = true /\
  AndroidCamera.queue
    (state_of
       (@AndroidCamera.start Phone.platform
          (state_of
             (AndroidCamera.stop
                (ZbarQrcodeDetector._camera Phone.streaming)))))
  = [].
Proof.
  split; [reflexivity | ].
  apply (@restart_forgets_the_stream Phone.platform
           (ZbarQrcodeDetector._camera Phone.streaming) Phone.parameters0
           eq_refl eq_refl eq_refl).
Defined.

Lemma surface_on_one_size :
  AndroidCamera.started
    (state_of
       (@AndroidCamera._on_surface_changed Devices.one_size 1 4 2
          (ZbarQrcodeDetector._camera Phone.opened)))
  = AndroidCamera.started (ZbarQrcodeDetector._camera Phone.opened).
Proof.
  apply (@refused_preview_size_stops_the_sequence Devices.one_size
           (ZbarQrcodeDetector._camera Phone.opened)
           (Phone.camera_of Phone.opened) 1 4 2 eq_refl eq_refl).
Defined.

Lemma no_buffer_for_unknown_format :
  AndroidCamera.frame_buffer (-1) 960 720 = [].
Proof.
  apply frame_buffer_empty_without_depth; lia.
Defined.

Lemma nv21_buffer_of_odd_frame :
  8 * Z.of_nat (List.length (AndroidCamera.frame_buffer 12 3 3)) <= 3 * 3 * 12
  < 8 * Z.of_nat (List.length (AndroidCamera.frame_buffer 12 3 3)) + 8.
Proof.
  apply (frame_buffer_drops_the_partial_byte 12 3 3); lia.
Defined.

Lemma frames_on_phone :
  ZbarQrcodeDetector.symbols
    (@ZbarQrcodeDetector.deliver_all Phone.platform
       [Phone.frame_blank; Phone.frame_hello; Phone.frame_blank]
       Phone.streaming)
  = [ZbarQrcodeDetector.qrcode_of Phone.hello] /\
  List.length
    (AndroidCamera.queue
       (ZbarQrcodeDetector._camera
          (@ZbarQrcodeDetector.deliver_all Phone.platform
             [Phone.frame_blank; Phone.frame_hello; Phone.frame_blank]
             Phone.streaming)))
  = 2%nat.
Proof.
  destruct (@frames_keep_the_pool_and_publish_the_last_detection
              Phone.platform
              [Phone.frame_blank; Phone.frame_hello; Phone.frame_blank]
              Phone.streaming (Camera.parameters Phone.camera)
              (repeat x00 12) [repeat x00 12] eq_refl eq_refl)
    as (Hsym & Hlen & _).
  split; [exact Hsym | exact Hlen].
Defined.

Lemma holder_after_three_assignments :
  exists s' : AndroidWidgetHolder.t Z nat,
    AndroidWidgetHolder.assign_views Z.sub Nat.eq_dec
      [Some 1%nat; None; Some 2%nat] Devices.holder
    = (Ok tt, s') /\
    AndroidWidgetHolder.content s' = [100%nat; 2%nat].
Proof.
  destruct (holder_shows_the_last_view Z Z.sub nat Nat.eq_dec [100%nat]
              [Some 1%nat; None; Some 2%nat] Devices.holder)
    as (s' & Hrun & _ & Hcontent & _).
  - repeat split.
  - intros v [H | [H | [H | []]]]; inversion H; subst; intros [E | []];
      discriminate E.
  - exists s'. split; [exact Hrun | exact Hcontent].
Defined.

Lemma overlay_on_holder :
  AndroidWidgetHolder.calls
    (state_of
       (AndroidWidgetHolder.on_view Z.sub Nat.eq_dec (Some 1%nat)
          Devices.holder))
  = [AndroidWidgetHolder.addContentView 1%nat 720 960;
     AndroidWidgetHolder.setZOrderOnTop 1%nat true;
     AndroidWidgetHolder.setX 1%nat 0;
     AndroidWidgetHolder.setY 1%nat 320].
Proof.
  apply (overlay_is_placed_with_flipped_y Z Z.sub nat Nat.eq_dec [100%nat]
           Devices.holder 1%nat eq_refl I).
  intros [E | []]. discriminate E.
Defined.

Lemma on_view_on_orphaned_holder :
  AndroidWidgetHolder.on_view Z.sub Nat.eq_dec None Devices.orphaned
  = (Raised AttributeError, Devices.orphaned).
Proof.
  apply (on_view_raises_when_old_view_is_detached Z Z.sub nat Nat.eq_dec
           Devices.orphaned 1%nat None eq_refl).
  intros [E | []]. discriminate E.
Defined.

Lemma surface_change_after_stop_on_phone :
  @AndroidCamera.surface_changed Phone.platform SurfaceView_new 1 4 2
    (state_of (AndroidCamera.stop (ZbarQrcodeDetector._camera Phone.streaming)))
  = (Raised AttributeError,
     state_of
       (AndroidCamera.stop (ZbarQrcodeDetector._camera Phone.streaming))).
Proof.
  apply (@surface_change_after_stop_raises Phone.platform
           (ZbarQrcodeDetector._camera Phone.streaming) SurfaceView_new 1 4 2).
Defined.



Lemma frame_on_released_camera_on_phone :
  ZbarQrcodeDetector.symbols
    (state_of
       (@ZbarQrcodeDetector._on_preview_frame Phone.platform Camera.Released
          Phone.frame_hello
          (state_of (ZbarQrcodeDetector.stop Phone.seen_hello))))
  = [].
Proof.
  apply (@frame_on_released_camera_changes_nothing Phone.platform
           Phone.frame_hello Phone.seen_hello).
Defined.
